(** * websitewatcher: the watch-processing pipeline

    A shallow embedding of [internal/http/http.go] (the retrying fetcher)
    and of [main.go] (the per-watch pipeline [processWatch] and the task
    body that [run] starts for every enabled watch), followed by the
    properties of the pipeline.  The flag parsing, the loading of the
    configuration and of the snapshot file, and the semaphore and wait
    group of [run] are not embedded.

    Conventions.
    - A Go [[]byte] is a [slice]: [None] is the nil slice, [Some l] a
      non-nil slice with contents [l].  Go [int] and [time.Duration] values
      are [Z]; no arithmetic on them can overflow in the code embedded here
      (the loop counter of [GetRequest] never passes [retries]).
    - Everything the program does to the outside world (log lines, HTTP
      exchanges, waits, e-mails, snapshot writes) is appended to a [trace];
      everything the outside world answers comes from an [Env].
    - The properties speak of [GetRequest] at the world in which
      [processWatch] starts: what [GetRequest] returns depends on the world
      through the number of earlier calls of [fetchURL] only, which the log
      line before it does not change. *)

From Stdlib Require Import ZArith Ascii String List Bool Lia DecimalString.
From Stdlib Require Strings.Byte.
From stdpp Require Import base option list strings gmap.

Local Open Scope Z_scope.

(** ** Go values *)

Abbreviation byte := Init.Byte.byte.

Definition slice : Type := option (list byte).

Definition slice_bytes (s : slice) : list byte :=
  match s with
  | Some l => l
  | None => []
  end.

(** [len(s)] *)
Definition len (s : slice) : Z := Z.of_nat (length (slice_bytes s)).

(** [[]byte(s)] and [string(b)] *)
Definition bytes_of_string (s : string) : slice := Some (list_byte_of_string s).
Definition string_of_bytes (b : slice) : string := string_of_list_byte (slice_bytes b).

#[global] Instance byte_eq_dec : EqDecision byte := Strings.Byte.byte_eq_dec.

(** [bytes.Equal]: a nil slice equals an empty one. *)
Definition bytes_Equal (a b : slice) : bool :=
  bool_decide (slice_bytes a = slice_bytes b).

(** [bytes.HasPrefix] and [bytes.Contains] on the contents. *)
Fixpoint HasPrefix (s prefix : list byte) : bool :=
  match prefix, s with
  | [], _ => true
  | _ :: _, [] => false
  | p :: prefix', x :: s' => Strings.Byte.eqb x p && HasPrefix s' prefix'
  end.

Fixpoint Contains (b subslice : list byte) : bool :=
  HasPrefix b subslice ||
  match b with
  | [] => false
  | _ :: b' => Contains b' subslice
  end.

Definition bytes_Contains (b subslice : slice) : bool :=
  Contains (slice_bytes b) (slice_bytes subslice).

(** [map[string][]string]; [None] is the nil map.  The pairs are listed in
    the order in which a [range] over the map visits them. *)
Definition header : Type := option (list (string * list string)).

(** The line feed, and [%d] of package [fmt]. *)
Definition LF : string := String (Ascii.ascii_of_nat 10) EmptyString.
Definition fmt_d (n : Z) : string := NilZero.string_of_int (Z.to_int n).

(** ** Errors

    The error values that reach [processWatch].  [Wrapf prefix err] is
    [fmt.Errorf(prefix + ": %w", err)]; [UrlError] is a [*url.Error], of
    which only the message and the answer of [Timeout()] matter. *)
Inductive error : Type :=
| InvalidResponseError (StatusCode : Z) (Header : header) (Body : slice)
| UrlError (msg : string) (timeout : bool)
| ErrorString (msg : string)
| Wrapf (prefix : string) (err : error).

(** [err.Error()] *)
Fixpoint Error (err : error) : string :=
  match err with
  | InvalidResponseError StatusCode _ Body =>
      "got invalid response on http request: status: " +:+ fmt_d StatusCode
        +:+ ", bodylen: " +:+ fmt_d (len Body)
  | UrlError msg _ => msg
  | ErrorString msg => msg
  | Wrapf prefix err' => prefix +:+ ": " +:+ Error err'
  end.

(** [errors.As(err, &invalidErr)] with [invalidErr *InvalidResponseError] *)
Fixpoint As_InvalidResponseError (err : error) : option (Z * header * slice) :=
  match err with
  | InvalidResponseError StatusCode Header Body => Some (StatusCode, Header, Body)
  | Wrapf _ err' => As_InvalidResponseError err'
  | UrlError _ _ | ErrorString _ => None
  end.

(** [errors.As(err, &urlErr)] with [urlErr *url.Error]; the result is the
    answer of [urlErr.Timeout()]. *)
Fixpoint As_url_Error (err : error) : option bool :=
  match err with
  | UrlError _ timeout => Some timeout
  | Wrapf _ err' => As_url_Error err'
  | InvalidResponseError _ _ _ | ErrorString _ => None
  end.

(** ** Configuration ([internal/config], as used by [main.go]) *)

Record ReplacePattern : Type := {
  Replace_Pattern : string;
  ReplaceWith : string;
}.

Record Watch : Type := {
  Name : string;
  URL : string;
  Disabled : bool;
  Pattern : string;
  Replaces : list ReplacePattern;
  AdditionalHTTPErrorsToIgnore : list Z;
}.

Record Configuration : Type := {
  HTTPErrorsToIgnore : list Z;
}.

(** ** The world: snapshot store and trace *)

Inductive Level : Type := DebugLevel | InfoLevel | ErrorLevel.

Inductive Event : Type :=
| EvLog (lvl : Level) (msg : string)
| EvFetch (userAgent url : string)       (* one call of fetchURL *)
| EvWaited (d : Z)                       (* time.After(d) fired *)
| EvCancelled (d : Z)                    (* ctx.Done() fired during the wait *)
| EvDiffAPI (text1 text2 : string)
| EvSendHTMLEmail (watch : Watch) (subject htmlContent : string)
| EvSendErrorEmail (watch : Watch) (err : error)
| EvSetDatabaseEntry (url : string) (content : list byte).

Record World : Type := {
  db : gmap string (list byte);
  fetches : nat;
  trace : list Event;
}.

(** One HTTP exchange as [fetchURL] sees it. *)
Inductive Exchange : Type :=
| RequestError (err : error)             (* http.NewRequestWithContext fails *)
| DoError (err : error)                  (* c.Do fails *)
| ReadError (err : error)                (* io.ReadAll fails *)
| Response (StatusCode : Z) (Header : header) (Body : list byte) (duration : Z).

(** Package [regexp] of the Go standard library, as far as [processWatch]
    uses it.  [FindSubmatch] returns the list of submatches, empty when
    there is no match.  [ReplaceAllLiteral] is not called by the program;
    it is the substitution that takes the replacement verbatim. *)
Record RegexpPackage : Type := {
  Regexp : Type;
  Compile : string -> Regexp + error;
  FindSubmatch : Regexp -> slice -> list slice;
  ReplaceAll : Regexp -> slice -> slice -> slice;
  ReplaceAllLiteral : Regexp -> slice -> slice -> slice;
}.

(** What the outside world answers.  [roundTrip n] is the answer to the
    [n]-th call of [fetchURL]; [ctx_Done n] tells whether the context is
    cancelled during a wait that starts after [n] calls. *)
Record Env : Type := {
  roundTrip : nat -> string -> string -> Exchange;
  ctx_Done : nat -> bool;
  ctx_Err : error;
  diff_DiffAPI : string -> string -> (string * string) + error;
  mailer_SendHTMLEmail : Watch -> string -> string -> option error;
  mailer_SendErrorEmail : Watch -> error -> option error;
  Duration_String : Z -> string;         (* %s of a time.Duration *)
  Duration_Round_ms : Z -> Z;            (* d.Round(time.Millisecond) *)
  regexp : RegexpPackage;
}.

(** ** A state monad over the world *)

Definition M (A : Type) : Type := World -> A * World.

Definition ret {A : Type} (a : A) : M A := fun w => (a, w).

Definition bind {A B : Type} (m : M A) (k : A -> M B) : M B :=
  fun w => let (a, w') := m w in k a w'.

Declare Scope go_scope.
Delimit Scope go_scope with go.
Notation "x <- m ;; k" := (bind m (fun x => k))
  (at level 100, m at next level, right associativity) : go_scope.
Notation "m ;;; k" := (bind m (fun _ => k))
  (at level 100, right associativity) : go_scope.
Local Open Scope go_scope.

Definition emit (e : Event) : M unit :=
  fun w => (tt, {| db := db w; fetches := fetches w; trace := trace w ++ [e] |}).

Definition log (lvl : Level) (msg : string) : M unit := emit (EvLog lvl msg).

(** ** internal/http/http.go *)

Record HTTPClient : Type := {
  userAgent : string;
  retries : Z;
  retryDelay : Z;
  client_Timeout : Z;
}.

Definition NewHTTPClient (userAgent : string) (retries retryDelay timeout : Z) : HTTPClient :=
  {| userAgent := userAgent; retries := retries; retryDelay := retryDelay;
     client_Timeout := timeout |}.

Definition signature_504 : slice := bytes_of_string "504 - Gateway Time-out".
Definition signature_404 : slice := bytes_of_string "404 - Not Found".
Definition signature_503 : slice := bytes_of_string "503 - Service Unavailable".

Definition isSoftError (body : slice) : bool :=
  if len body =? 0 then false
  else if bytes_Contains body signature_504
          || bytes_Contains body signature_404
          || bytes_Contains body signature_503
  then true
  else false.

(** The five results of [fetchURL] and [GetRequest]. *)
Definition Result : Type := (Z * header * Z * slice * option error)%type.

Definition Result_err (r : Result) : option error := snd r.

Section Fetcher.
Context (env : Env).

(** The request, [c.Do] and [io.ReadAll] of one [fetchURL] call. *)
Definition exchange (c : HTTPClient) (url : string) : M Exchange :=
  fun w =>
    (roundTrip env (fetches w) (userAgent c) url,
     {| db := db w; fetches := S (fetches w);
        trace := trace w ++ [EvFetch (userAgent c) url] |}).

Definition fetchURL (c : HTTPClient) (url : string) : M Result :=
  x <- exchange c url ;;
  match x with
  | RequestError err =>
      ret (-1, None, -1, None, Some (Wrapf ("could create get request for " +:+ url) err))
  | DoError err =>
      ret (-1, None, -1, None, Some (Wrapf ("could not get " +:+ url) err))
  | ReadError err =>
      ret (-1, None, -1, None, Some (Wrapf ("could not read body from " +:+ url) err))
  | Response StatusCode Header body duration =>
      if negb (StatusCode =? 200) || (len (Some body) =? 0) || isSoftError (Some body)
      then ret (-1, None, duration, None,
                Some (InvalidResponseError StatusCode Header (Some body)))
      else ret (StatusCode, Header, duration, Some body, None)
  end.

(** The [select] of [GetRequest]: [true] when [ctx.Done()] fires first. *)
Definition wait (d : Z) : M bool :=
  fun w =>
    let cancelled := ctx_Done env (fetches w) in
    (cancelled,
     {| db := db w; fetches := fetches w;
        trace := trace w ++ [if cancelled then EvCancelled d else EvWaited d] |}).

(** The [for] loop of [GetRequest], started at [i] with the current values
    of the five variables.  [inl r]: the function returned [r] from inside
    the loop; [inr vars]: the loop was left with the variables at [vars].
    [fuel] bounds the number of iterations. *)
Fixpoint GetRequest_loop (fuel : nat) (c : HTTPClient) (url : string)
    (i : Z) (vars : Result) : M (Result + Result) :=
  match fuel with
  | O => ret (inr vars)
  | S fuel' =>
      if i <=? retries c then
        log DebugLevel ("try #" +:+ fmt_d i +:+ " for " +:+ url) ;;;
        r <- fetchURL c url ;;
        match Result_err r with
        | None => ret (inr r)
        | Some err =>
            if i =? retries c then ret (inr r)
            else if 0 <? retryDelay c then
              log ErrorLevel
                (Error (Wrapf ("got error on try #" +:+ fmt_d i +:+ " for " +:+ url
                                 +:+ ", retrying after "
                                 +:+ Duration_String env (retryDelay c)) err)) ;;;
              cancelled <- wait (retryDelay c) ;;
              if cancelled : bool
              then ret (inl (-1, None, -1, None, Some (ctx_Err env)))
              else GetRequest_loop fuel' c url (i + 1) r
            else
              log ErrorLevel
                (Error (Wrapf ("got error on try #" +:+ fmt_d i +:+ " for " +:+ url
                                 +:+ ", retrying") err)) ;;;
              GetRequest_loop fuel' c url (i + 1) r
        end
      else ret (inr vars)
  end.

Definition GetRequest (c : HTTPClient) (url : string) : M Result :=
  out <- GetRequest_loop (Z.to_nat (retries c)) c url 1 (0, None, 0, None, None) ;;
  match out with
  | inl r => ret r
  | inr (statusCode, header, requestDuration, body, err) =>
      match err with
      | Some err => ret (-1, None, -1, None, Some err)
      | None => ret (statusCode, header, requestDuration, body, None)
      end
  end.

End Fetcher.

(** ** Collaborators of main.go that are not part of the pipeline *)

(** Modelled from the spec: the snapshot store of [internal/database], whose
    source is not available.  The spec gives it as a mapping from the
    resource key (the URL) to the last-observed content bytes, with
    [get(key) -> content|absent] and [set(key, content)]; absence is what
    [processWatch] tests as [lastContent == nil].  A slice handed to [set]
    is recorded by its contents. *)
Definition GetDatabaseEntry (url : string) : M slice :=
  fun w => (db w !! url, w).

Definition SetDatabaseEntry (url : string) (content : slice) : M unit :=
  fun w =>
    (tt, {| db := <[url := slice_bytes content]> (db w); fetches := fetches w;
            trace := trace w ++ [EvSetDatabaseEntry url (slice_bytes content)] |}).

(** ** main.go *)

Record app : Type := {
  config : Configuration;
  httpClient : HTTPClient;
  testMode : bool;
}.

(** [app.logError] *)
Definition logError (err : error) : M unit :=
  log ErrorLevel ("[ERROR] " +:+ Error err).

(** [strings.ReplaceAll(body, "\n", "<br>\n")] *)
Fixpoint ReplaceAll_LF_br (body : string) : string :=
  match body with
  | EmptyString => EmptyString
  | String c rest =>
      if Ascii.eqb c (Ascii.ascii_of_nat 10)
      then "<br>" +:+ LF +:+ ReplaceAll_LF_br rest
      else String c (ReplaceAll_LF_br rest)
  end.

(** [strings.Join] *)
Fixpoint strings_Join (elems : list string) (sep : string) : string :=
  match elems with
  | [] => EmptyString
  | [e] => e
  | e :: rest => e +:+ sep +:+ strings_Join rest sep
  end.

(** [html.EscapeString] *)
Fixpoint html_EscapeString (s : string) : string :=
  match s with
  | EmptyString => EmptyString
  | String c rest =>
      let rest' := html_EscapeString rest in
      if Ascii.eqb c "&"%char then "&amp;" +:+ rest'
      else if Ascii.eqb c "'"%char then "&#39;" +:+ rest'
      else if Ascii.eqb c "<"%char then "&lt;" +:+ rest'
      else if Ascii.eqb c ">"%char then "&gt;" +:+ rest'
      else if Ascii.eqb c (Ascii.ascii_of_nat 34) then "&#34;" +:+ rest'
      else String c rest'
  end.

Definition formatHeaders (header : header) : string :=
  match header with
  | None => EmptyString
  | Some entries =>
      fold_left
        (fun sb '(key, value) => sb +:+ key +:+ ": " +:+ strings_Join value ", " +:+ LF)
        entries EmptyString
  end.

(** A status code is ignored when the [range] over the list finds it. *)
Fixpoint ignored (StatusCode : Z) (ignore : list Z) : bool :=
  match ignore with
  | [] => false
  | i :: rest => if StatusCode =? i then true else ignored StatusCode rest
  end.

Section Pipeline.
Context (env : Env).

Definition SendHTMLEmail (watch : Watch) (subject htmlContent : string) : M (option error) :=
  emit (EvSendHTMLEmail watch subject htmlContent) ;;;
  ret (mailer_SendHTMLEmail env watch subject htmlContent).

Definition SendErrorEmail (watch : Watch) (err : error) : M (option error) :=
  emit (EvSendErrorEmail watch err) ;;;
  ret (mailer_SendErrorEmail env watch err).

Definition DiffAPI (text1 text2 : string) : M ((string * string) + error) :=
  emit (EvDiffAPI text1 text2) ;;;
  ret (diff_DiffAPI env text1 text2).

Definition generateHTMLContentForEmail (body : string) (includeDiff : bool)
    (text1 text2 : string) : M (string * option error) :=
  let body := ReplaceAll_LF_br body in
  if includeDiff then
    d <- DiffAPI text1 text2 ;;
    match d with
    | inr err => ret (EmptyString, Some err)
    | inl (css, html) =>
        ret ("<html><head><style>" +:+ css +:+ "</style></head><body>" +:+ body
               +:+ "<br><br>" +:+ LF +:+ html +:+ "</body></html>", None)
    end
  else ret ("<html><body>" +:+ body +:+ "</body></html>", None).

(** Lines 156-195 of [processWatch]: [GetRequest] returned [err]. *)
Definition handleRequestError (a : app) (watch : Watch) (requestDuration : Z)
    (err : error) : M (option error) :=
  match As_InvalidResponseError err with
  | Some (StatusCode, Header, Body) =>
      logError (ErrorString
        ("invalid response for " +:+ Name watch +:+ " - status: " +:+ fmt_d StatusCode
           +:+ ", body: " +:+ string_of_bytes Body +:+ ", duration: "
           +:+ Duration_String env requestDuration)) ;;;
      if ignored StatusCode (HTTPErrorsToIgnore (config a)) then ret None
      else if ignored StatusCode (AdditionalHTTPErrorsToIgnore watch) then ret None
      else
        let subject := "Invalid response for " +:+ Name watch in
        let text :=
          "Name: " +:+ Name watch +:+ LF +:+ "URL: " +:+ URL watch +:+ LF
            +:+ "Request Duration: "
            +:+ Duration_String env (Duration_Round_ms env requestDuration) +:+ LF
            +:+ "Status: " +:+ fmt_d StatusCode +:+ LF
            +:+ "Bodylen: " +:+ fmt_d (len Body) +:+ LF
            +:+ "Header:" +:+ LF +:+ html_EscapeString (formatHeaders Header) +:+ LF
            +:+ "Body:" +:+ LF +:+ html_EscapeString (string_of_bytes Body) in
        h <- generateHTMLContentForEmail text false EmptyString EmptyString ;;
        match snd h with
        | Some err => ret (Some (Wrapf "error on creating htmlcontent" err))
        | None =>
            sent <- SendHTMLEmail watch subject (fst h) ;;
            match sent with
            | Some err => ret (Some (Wrapf "error on sending email" err))
            | None => ret None
            end
        end
  | None =>
      match As_url_Error err with
      | Some true => ret None
      | _ => ret (Some err)
      end
  end.

(** Lines 198-208: the extraction pattern. *)
Definition extractContent (watch : Watch) (body : slice) : slice + error :=
  if decide (Pattern watch = EmptyString) then inl body
  else
    match Compile (regexp env) (Pattern watch) with
    | inr err => inr (Wrapf ("could not compile pattern " +:+ Pattern watch) err)
    | inl re =>
        let match_ := FindSubmatch (regexp env) re body in
        if Z.of_nat (length match_) <? 2
        then inr (ErrorString ("pattern " +:+ Pattern watch +:+ " did not match "
                                 +:+ string_of_bytes body))
        else inl (nth 1 match_ None)
    end.

(** Lines 210-218: the [range] over [watch.Replaces]. *)
Fixpoint applyReplaces (replaces : list ReplacePattern) (body : slice) : M (slice + error) :=
  match replaces with
  | [] => ret (inl body)
  | replace :: rest =>
      log DebugLevel ("replacing " +:+ Replace_Pattern replace) ;;;
      match Compile (regexp env) (Replace_Pattern replace) with
      | inr err =>
          ret (inr (Wrapf ("could not compile replace pattern "
                             +:+ Replace_Pattern replace) err))
      | inl re =>
          let body := ReplaceAll (regexp env) re body (bytes_of_string (ReplaceWith replace)) in
          log DebugLevel ("After " +:+ Replace_Pattern replace +:+ ":" +:+ LF
                            +:+ string_of_bytes body +:+ LF +:+ LF) ;;;
          applyReplaces rest body
      end
  end.

(** Lines 228-243: the notification of a change.  The subject is logged
    through [Infof], with the subject in the place of the format. *)
Definition notifyChange (a : app) (watch : Watch) (lastContent : slice)
    (statusCode requestDuration : Z) (body : slice) : M (option error) :=
  if testMode a then
    log DebugLevel ("Website " +:+ Name watch +:+ " " +:+ URL watch
                      +:+ " differ! Would send email in prod") ;;;
    ret None
  else
    let subject := "Detected change on " +:+ Name watch in
    log InfoLevel subject ;;;
    let text :=
      "Name: " +:+ Name watch +:+ LF +:+ "URL: " +:+ URL watch +:+ LF
        +:+ "Request Duration: "
        +:+ Duration_String env (Duration_Round_ms env requestDuration) +:+ LF
        +:+ "Status: " +:+ fmt_d statusCode +:+ LF
        +:+ "Bodylen: " +:+ fmt_d (len body) in
    h <- generateHTMLContentForEmail text true
           (string_of_bytes lastContent) (string_of_bytes body) ;;
    match snd h with
    | Some err => ret (Some (Wrapf "error on creating htmlcontent" err))
    | None =>
        sent <- SendHTMLEmail watch subject (fst h) ;;
        match sent with
        | Some err => ret (Some (Wrapf "error on sending email" err))
        | None => ret None
        end
    end.

(** Lines 220-248: comparison with the snapshot and the store update. *)
Definition compareAndStore (a : app) (watch : Watch) (lastContent : slice)
    (statusCode requestDuration : Z) (body : slice) : M (option error) :=
  match lastContent with
  | None =>
      log DebugLevel ("new website " +:+ Name watch +:+ " " +:+ URL watch
                        +:+ " detected, not comparing") ;;;
      SetDatabaseEntry (URL watch) body ;;;
      ret None
  | Some _ =>
      failed <- (if negb (bytes_Equal lastContent body)
                 then notifyChange a watch lastContent statusCode requestDuration body
                 else ret None) ;;
      match failed with
      | Some err => ret (Some err)
      | None =>
          SetDatabaseEntry (URL watch) body ;;;
          ret None
      end
  end.

(** Lines 197-248: what [processWatch] does with a body that
    [GetRequest] returned without error. *)
Definition processBody (a : app) (watch : Watch) (lastContent : slice)
    (statusCode requestDuration : Z) (body : slice) : M (option error) :=
  match extractContent watch body with
  | inr err => ret (Some err)
  | inl body =>
      replaced <- applyReplaces (Replaces watch) body ;;
      match replaced with
      | inr err => ret (Some err)
      | inl body => compareAndStore a watch lastContent statusCode requestDuration body
      end
  end.

Definition processWatch (a : app) (watch : Watch) : M (option error) :=
  log InfoLevel ("processing " +:+ Name watch +:+ ": " +:+ URL watch) ;;;
  lastContent <- GetDatabaseEntry (URL watch) ;;
  r <- GetRequest env (httpClient a) (URL watch) ;;
  let '(statusCode, _, requestDuration, body, err) := r in
  match err with
  | Some err => handleRequestError a watch requestDuration err
  | None => processBody a watch lastContent statusCode requestDuration body
  end.

(** The body of the goroutine that [run] starts for an enabled watch
    (lines 125-137). *)
Definition watchTask (a : app) (watch : Watch) : M unit :=
  failed <- processWatch a watch ;;
  match failed with
  | Some err =>
      logError (Wrapf ("error on " +:+ Name watch) err) ;;;
      err2 <- SendErrorEmail watch err ;;
      match err2 with
      | Some err2 => logError err2
      | None => ret tt
      end
  | None => ret tt
  end.

End Pipeline.

(** * Vocabulary of the properties *)

(** [subslice] occurs in [b]. *)
Definition occurs (subslice b : list byte) : Prop :=
  exists pre post, b = pre ++ subslice ++ post.

(** What the [n]-th call of [fetchURL] returns. *)
Definition attempt (env : Env) (c : HTTPClient) (url : string) (n : nat) : Result :=
  match roundTrip env n (userAgent c) url with
  | RequestError err =>
      (-1, None, -1, None, Some (Wrapf ("could create get request for " +:+ url) err))
  | DoError err =>
      (-1, None, -1, None, Some (Wrapf ("could not get " +:+ url) err))
  | ReadError err =>
      (-1, None, -1, None, Some (Wrapf ("could not read body from " +:+ url) err))
  | Response StatusCode Header body duration =>
      if negb (StatusCode =? 200) || (len (Some body) =? 0) || isSoftError (Some body)
      then (-1, None, duration, None,
            Some (InvalidResponseError StatusCode Header (Some body)))
      else (StatusCode, Header, duration, Some body, None)
  end.

(** The world after [evs] were appended and [n] more calls of [fetchURL]. *)
Definition advance (w : World) (n : nat) (evs : list Event) : World :=
  {| db := db w; fetches := (fetches w + n)%nat; trace := trace w ++ evs |}.

(** Classes of events. *)
Definition is_net (e : Event) : bool :=
  match e with
  | EvFetch _ _ | EvWaited _ | EvCancelled _ => true
  | _ => false
  end.

Definition is_fetch (e : Event) : bool :=
  match e with
  | EvFetch _ _ => true
  | _ => false
  end.

Definition is_wait (e : Event) : bool :=
  match e with
  | EvWaited _ | EvCancelled _ => true
  | _ => false
  end.

Definition is_mail (e : Event) : bool :=
  match e with
  | EvSendHTMLEmail _ _ _ | EvSendErrorEmail _ _ => true
  | _ => false
  end.

Definition is_store (e : Event) : bool :=
  match e with
  | EvSetDatabaseEntry _ _ => true
  | _ => false
  end.

(** The network events of [k] failed attempts, each followed by the wait
    when there is one, and of one more attempt. *)
Fixpoint attempts_net (ua url : string) (delay : Z) (k : nat) : list Event :=
  match k with
  | O => [EvFetch ua url]
  | S k' =>
      EvFetch ua url :: (if 0 <? delay then [EvWaited delay] else [])
        ++ attempts_net ua url delay k'
  end.

(** The network events of [k] failed attempts with completed waits, and of
    one more failed attempt whose wait is cancelled. *)
Fixpoint cancelled_net (ua url : string) (delay : Z) (k : nat) : list Event :=
  match k with
  | O => [EvFetch ua url; EvCancelled delay]
  | S k' => EvFetch ua url :: EvWaited delay :: cancelled_net ua url delay k'
  end.

(** The log lines of one iteration of the retry loop. *)
Definition try_log (url : string) (i : Z) : Event :=
  EvLog DebugLevel ("try #" +:+ fmt_d i +:+ " for " +:+ url).

Definition retry_log (env : Env) (c : HTTPClient) (url : string) (i : Z) (err : error) : Event :=
  EvLog ErrorLevel
    (Error (Wrapf (if 0 <? retryDelay c
                   then "got error on try #" +:+ fmt_d i +:+ " for " +:+ url
                          +:+ ", retrying after " +:+ Duration_String env (retryDelay c)
                   else "got error on try #" +:+ fmt_d i +:+ " for " +:+ url
                          +:+ ", retrying") err)).

(** ** A fragment of package regexp

    Package [regexp] for the expressions that are built from ASCII
    characters other than the metacharacters, and from capture parentheses
    around them: such an expression matches its own text with the
    parentheses removed, and every group captures a fixed part of the
    match.  The replacement of [ReplaceAll] is a template in which [$$]
    stands for a dollar sign and [$name], [${name}] for a submatch, as
    [Regexp.Expand] of the standard library reads it.  An expression
    outside the fragment (one with an operator, or one that matches the
    empty text) is refused by [Compile] here, which the standard library
    does not do: the properties below are stated for every
    [RegexpPackage], and the fragment serves the examples. *)
Module GoRegexp.

Record Regexp : Type := {
  text : list byte;                 (* the text matched *)
  groups : list (nat * nat);        (* start and end of each group in it *)
}.

Definition code (b : byte) : N := Strings.Byte.to_N b.

Definition is_meta (b : byte) : bool :=
  existsb (Strings.Byte.eqb b) (list_byte_of_string "\.+*?()|[]{}^$").

Definition is_plain (b : byte) : bool :=
  negb (is_meta b) && (32 <=? code b)%N && (code b <? 127)%N.

(** Scan the expression: [open] holds the numbers of the groups not yet
    closed, innermost first. *)
Fixpoint parse (expr : list byte) (seen : list byte) (open : list nat)
    (groups : list (nat * nat)) : option Regexp :=
  match expr with
  | [] =>
      match open, seen with
      | [], _ :: _ => Some {| text := seen; groups := groups |}
      | _, _ => None
      end
  | b :: rest =>
      if Strings.Byte.eqb b Init.Byte.x28 then
        parse rest seen (length groups :: open)
              (groups ++ [(length seen, length seen)])
      else if Strings.Byte.eqb b Init.Byte.x29 then
        match open with
        | [] => None
        | g :: open' =>
            parse rest seen open'
                  (alter (fun se => (fst se, length seen)) g groups)
        end
      else if is_plain b then parse rest (seen ++ [b]) open groups
      else None
  end.

Definition Compile (expr : string) : Regexp + error :=
  match parse (list_byte_of_string expr) [] [] [] with
  | Some re => inl re
  | None => inr (ErrorString ("error parsing regexp: `" +:+ expr +:+ "`"))
  end.

(** The first occurrence of the text in [b], as the bytes before it. *)
Fixpoint index (b text : list byte) : option nat :=
  if HasPrefix b text then Some O
  else match b with
       | [] => None
       | _ :: b' => S <$> index b' text
       end.

Definition submatches (re : Regexp) : list (list byte) :=
  text re :: map (fun se => take (snd se - fst se) (drop (fst se) (text re))) (groups re).

Definition FindSubmatch (re : Regexp) (b : slice) : list slice :=
  match index (slice_bytes b) (text re) with
  | Some _ => map Some (submatches re)
  | None => []
  end.

(** Names in a template: ASCII letters, digits and the underscore. *)
Definition is_name (b : byte) : bool :=
  ((48 <=? code b) && (code b <=? 57) || (65 <=? code b) && (code b <=? 90)
   || (97 <=? code b) && (code b <=? 122) || (code b =? 95))%N.

Fixpoint span_name (str : list byte) : list byte * list byte :=
  match str with
  | b :: rest =>
      if is_name b then let (name, after) := span_name rest in (b :: name, after)
      else ([], str)
  | [] => ([], [])
  end.

(** The number that a name spells, [-1] when it is not a number. *)
Fixpoint number (name : list byte) (num : Z) : Z :=
  match name with
  | [] => num
  | b :: rest =>
      if negb ((48 <=? code b) && (code b <=? 57))%N || (100000000 <=? num) then -1
      else number rest (num * 10 + Z.of_N (code b) - 48)
  end.

(** [extract]: the name after a dollar sign, its number, and the rest. *)
Definition extract (str : list byte) : option (list byte * Z * list byte) :=
  let '(brace, str') :=
    match str with
    | b :: rest => if Strings.Byte.eqb b Init.Byte.x7b then (true, rest) else (false, str)
    | [] => (false, str)
    end in
  let (name, after) := span_name str' in
  match name with
  | [] => None
  | first :: more =>
      let num := number name 0 in
      let num := if Strings.Byte.eqb first Init.Byte.x30 && negb (Nat.eqb (length more) 0)
                 then -1 else num in
      if brace : bool then
        match after with
        | b :: rest => if Strings.Byte.eqb b Init.Byte.x7d then Some (name, num, rest) else None
        | [] => None
        end
      else Some (name, num, after)
  end.

(** [strings.Cut(template, "$")] *)
Fixpoint cut_dollar (template : list byte) : option (list byte * list byte) :=
  match template with
  | [] => None
  | b :: rest =>
      if Strings.Byte.eqb b Init.Byte.x24 then Some ([], rest)
      else match cut_dollar rest with
           | Some (before, after) => Some (b :: before, after)
           | None => None
           end
  end.

(** [expand]: the replacement text for one match.  No group has a name
    in the fragment, so a reference by name expands to nothing. *)
Fixpoint expand (fuel : nat) (re : Regexp) (template : list byte) : list byte :=
  match fuel with
  | O => template
  | S fuel' =>
      match cut_dollar template with
      | None => template
      | Some (before, after) =>
          before ++
          match after with
          | b :: rest =>
              if Strings.Byte.eqb b Init.Byte.x24 then Init.Byte.x24 :: expand fuel' re rest
              else
                match extract after with
                | None => Init.Byte.x24 :: expand fuel' re after
                | Some (_, num, rest') =>
                    (if 0 <=? num
                     then match submatches re !! Z.to_nat num with
                          | Some sub => sub
                          | None => []
                          end
                     else [])
                      ++ expand fuel' re rest'
                end
          | [] => [Init.Byte.x24]
          end
      end
  end.

(** Replace every occurrence of the text, left to right. *)
Fixpoint replace (fuel : nat) (re : Regexp) (src repl : list byte) : list byte :=
  match fuel with
  | O => src
  | S fuel' =>
      if HasPrefix src (text re)
      then repl ++ replace fuel' re (drop (length (text re)) src) repl
      else match src with
           | [] => []
           | b :: src' => b :: replace fuel' re src' repl
           end
  end.

(** The buffer that [replaceAll] returns stays nil until a byte is
    appended to it. *)
Definition buffer (l : list byte) : slice :=
  match l with
  | [] => None
  | _ => Some l
  end.

Definition ReplaceAll (re : Regexp) (src repl : slice) : slice :=
  buffer (replace (S (length (slice_bytes src))) re (slice_bytes src)
            (expand (S (length (slice_bytes repl))) re (slice_bytes repl))).

Definition ReplaceAllLiteral (re : Regexp) (src repl : slice) : slice :=
  buffer (replace (S (length (slice_bytes src))) re (slice_bytes src) (slice_bytes repl)).

Definition package : RegexpPackage :=
  Build_RegexpPackage Regexp Compile FindSubmatch ReplaceAll ReplaceAllLiteral.

End GoRegexp.


(** What [GetRequest] returns when the loop is left with the variables at
    [vars]: an error hides the other four values. *)
Definition surface (vars : Result) : Result :=
  match Result_err vars with
  | Some err => (-1, None, -1, None, Some err)
  | None => vars
  end.

(** The first [m] calls of [fetchURL] counted from the world [w] fail. *)
Definition fail_before (env : Env) (c : HTTPClient) (url : string) (w : World) (m : nat) : Prop :=
  forall j, (j < m)%nat -> Result_err (attempt env c url (fetches w + j)) <> None.

(** When there is a delay, the waits after the first [m] calls complete. *)
Definition waits_complete (env : Env) (c : HTTPClient) (w : World) (m : nat) : Prop :=
  0 < retryDelay c -> forall j, (j < m)%nat -> ctx_Done env (fetches w + j + 1) = false.

Definition is_log (e : Event) : bool :=
  match e with
  | EvLog _ _ => true
  | _ => false
  end.

(** The world after [SetDatabaseEntry url content]. *)
Definition put (w : World) (url : string) (content : list byte) : World :=
  {| db := <[url := content]> (db w); fetches := fetches w;
     trace := trace w ++ [EvSetDatabaseEntry url content] |}.

(** ** The transformation in the words of the spec

    The extraction pattern, when there is one, must compile and match with
    at least one capture group, and the body becomes the first group; the
    replacement pairs are then applied in their declared order, each with
    the substitution [substitute], and a pattern that does not compile ends
    the transformation with an error. *)
Section Transformation.
Context (pkg : RegexpPackage).

Definition spec_extract (pattern : string) (body : slice) : slice + error :=
  match pattern with
  | EmptyString => inl body
  | _ =>
      match Compile pkg pattern with
      | inr err => inr (Wrapf ("could not compile pattern " +:+ pattern) err)
      | inl re =>
          match FindSubmatch pkg re body with
          | _ :: group1 :: _ => inl group1
          | _ => inr (ErrorString ("pattern " +:+ pattern +:+ " did not match "
                                     +:+ string_of_bytes body))
          end
      end
  end.

Fixpoint spec_replace (substitute : Regexp pkg -> slice -> slice -> slice)
    (pairs : list ReplacePattern) (body : slice) : slice + error :=
  match pairs with
  | [] => inl body
  | replace :: rest =>
      match Compile pkg (Replace_Pattern replace) with
      | inr err =>
          inr (Wrapf ("could not compile replace pattern " +:+ Replace_Pattern replace) err)
      | inl re =>
          spec_replace substitute rest (substitute re body (bytes_of_string (ReplaceWith replace)))
      end
  end.

Definition spec_transform (substitute : Regexp pkg -> slice -> slice -> slice)
    (watch : Watch) (body : slice) : slice + error :=
  match spec_extract (Pattern watch) body with
  | inr err => inr err
  | inl body' => spec_replace substitute (Replaces watch) body'
  end.

End Transformation.

(** The transformation with the replacement read as a template, and with
    the replacement taken verbatim. *)
Definition transform_template (pkg : RegexpPackage) : Watch -> slice -> slice + error :=
  spec_transform pkg (ReplaceAll pkg).

Definition transform_literal (pkg : RegexpPackage) : Watch -> slice -> slice + error :=
  spec_transform pkg (ReplaceAllLiteral pkg).

(** The texts of the two notifications of [processWatch]. *)
Definition change_subject (watch : Watch) : string := "Detected change on " +:+ Name watch.

Definition change_text (env : Env) (watch : Watch) (statusCode requestDuration : Z)
    (body : slice) : string :=
  "Name: " +:+ Name watch +:+ LF +:+ "URL: " +:+ URL watch +:+ LF
    +:+ "Request Duration: "
    +:+ Duration_String env (Duration_Round_ms env requestDuration) +:+ LF
    +:+ "Status: " +:+ fmt_d statusCode +:+ LF
    +:+ "Bodylen: " +:+ fmt_d (len body).

Definition change_html (css html text : string) : string :=
  "<html><head><style>" +:+ css +:+ "</style></head><body>" +:+ ReplaceAll_LF_br text
    +:+ "<br><br>" +:+ LF +:+ html +:+ "</body></html>".

Definition would_send_log (watch : Watch) : Event :=
  EvLog DebugLevel ("Website " +:+ Name watch +:+ " " +:+ URL watch
                      +:+ " differ! Would send email in prod").

(** The log line and the notification of an invalid response. *)
Definition invalid_log (env : Env) (watch : Watch) (requestDuration StatusCode : Z)
    (Body : slice) : Event :=
  EvLog ErrorLevel
    ("[ERROR] " +:+
     ("invalid response for " +:+ Name watch +:+ " - status: " +:+ fmt_d StatusCode
        +:+ ", body: " +:+ string_of_bytes Body +:+ ", duration: "
        +:+ Duration_String env requestDuration)).

Definition invalid_subject (watch : Watch) : string := "Invalid response for " +:+ Name watch.

Definition invalid_html (env : Env) (watch : Watch) (requestDuration StatusCode : Z)
    (Header : header) (Body : slice) : string :=
  "<html><body>" +:+
  ReplaceAll_LF_br
    ("Name: " +:+ Name watch +:+ LF +:+ "URL: " +:+ URL watch +:+ LF
       +:+ "Request Duration: "
       +:+ Duration_String env (Duration_Round_ms env requestDuration) +:+ LF
       +:+ "Status: " +:+ fmt_d StatusCode +:+ LF
       +:+ "Bodylen: " +:+ fmt_d (len Body) +:+ LF
       +:+ "Header:" +:+ LF +:+ html_EscapeString (formatHeaders Header) +:+ LF
       +:+ "Body:" +:+ LF +:+ html_EscapeString (string_of_bytes Body))
  +:+ "</body></html>".

(** The events of the scheduler's task after [processWatch] returned
    [err]: the log line, the error mail, and a second log line when the
    mailer fails. *)
Definition task_error_events (env : Env) (watch : Watch) (err : error) : list Event :=
  EvLog ErrorLevel ("[ERROR] " +:+ Error (Wrapf ("error on " +:+ Name watch) err))
    :: EvSendErrorEmail watch err
    :: match mailer_SendErrorEmail env watch err with
       | Some err2 => [EvLog ErrorLevel ("[ERROR] " +:+ Error err2)]
       | None => []
       end.

(** ** Sample data for the examples *)
Module Sample.

Definition watchA : Watch :=
  {| Name := "A"; URL := "https://a.example/"; Disabled := false; Pattern := EmptyString;
     Replaces := []; AdditionalHTTPErrorsToIgnore := [] |}.

(** An environment that answers the [n]-th call of [fetchURL] with
    [net n], never cancels, and in which the diff service works when
    [diff_up] is set and the mailer when [mail_up] is set. *)
Definition env_of (net : nat -> Exchange) (diff_up mail_up : bool) : Env :=
  {| roundTrip := fun n _ _ => net n;
     ctx_Done := fun _ => false;
     ctx_Err := ErrorString "context canceled";
     diff_DiffAPI := fun _ _ =>
       if diff_up then inl ("css", "html") else inr (ErrorString "diff service unreachable");
     mailer_SendHTMLEmail := fun _ _ _ =>
       if mail_up then None else Some (ErrorString "dial tcp: connection refused");
     mailer_SendErrorEmail := fun _ _ =>
       if mail_up then None else Some (ErrorString "dial tcp: connection refused");
     Duration_String := fun d => fmt_d d +:+ "ns";
     Duration_Round_ms := fun d => (d + 500000) / 1000000 * 1000000;
     regexp := GoRegexp.package |}.


Definition ok (body : string) : Exchange :=
  Response 200 (Some [("Content-Type", ["text/html"])]) (list_byte_of_string body) 12000000.

Definition status (code : Z) (body : string) : Exchange :=
  Response code (Some []) (list_byte_of_string body) 12000000.

Definition refused : Exchange :=
  DoError (UrlError "Get https://a.example/: dial tcp: connection refused" false).

Definition client (retries retryDelay : Z) : HTTPClient :=
  NewHTTPClient "websitewatcher" retries retryDelay 10000000000.

Definition app_of (retries retryDelay : Z) (ignore : list Z) (test : bool) : app :=
  {| config := {| HTTPErrorsToIgnore := ignore |};
     httpClient := client retries retryDelay;
     testMode := test |}.

Definition store (entries : list (string * string)) : World :=
  {| db := list_to_map (map (fun kv => (fst kv, list_byte_of_string (snd kv))) entries);
     fetches := 0; trace := [] |}.


(** A watch that extracts the text of the first bold element and then
    rewrites it. *)
Definition watchC : Watch :=
  {| Name := "C"; URL := "https://c.example/"; Disabled := false;
     Pattern := "<b>(v2)</b>";
     Replaces := [ {| Replace_Pattern := "v"; ReplaceWith := "version " |} ];
     AdditionalHTTPErrorsToIgnore := [] |}.

(** A watch whose replacement holds a dollar sign. *)
Definition watchD : Watch :=
  {| Name := "D"; URL := "https://d.example/"; Disabled := false;
     Pattern := EmptyString;
     Replaces := [ {| Replace_Pattern := "b"; ReplaceWith := "$$" |} ];
     AdditionalHTTPErrorsToIgnore := [] |}.

End Sample.
(** * Properties *)

(** ** Byte search *)

Lemma HasPrefix_spec (s prefix : list byte) :
  HasPrefix s prefix = true <-> exists post, s = prefix ++ post.
Proof.
  revert s. induction prefix as [|p prefix IH]; intros s; simpl.
  - split; [intros _; exists s; reflexivity | intros _; destruct s; reflexivity].
  - destruct s as [|x s]; simpl.
    + split; [discriminate | intros [post Hpost]; discriminate].
    + rewrite andb_true_iff, IH. split.
      * intros [Hx [post ->]]. apply Strings.Byte.byte_dec_bl in Hx. subst x.
        exists post. reflexivity.
      * intros [post Hpost]. injection Hpost as -> ->. split.
        -- apply Strings.Byte.byte_dec_lb. reflexivity.
        -- exists post. reflexivity.
Qed.

Lemma Contains_spec (b subslice : list byte) :
  Contains b subslice = true <-> occurs subslice b.
Proof.
  unfold occurs. induction b as [|x b IH]; cbn [Contains].
  - rewrite orb_false_r, HasPrefix_spec. split.
    + intros [post ->]. exists [], post. reflexivity.
    + intros [pre [post H]]. destruct pre as [|y pre]; [|discriminate].
      exists post. exact H.
  - rewrite orb_true_iff, HasPrefix_spec, IH. split.
    + intros [[post ->] | [pre [post ->]]].
      * exists [], post. reflexivity.
      * exists (x :: pre), post. reflexivity.
    + intros [pre [post H]]. destruct pre as [|y pre]; simpl in H.
      * left. exists post. exact H.
      * right. injection H as -> ->. exists pre, post. reflexivity.
Qed.

Lemma len_zero (l : list byte) : (len (Some l) =? 0) = true <-> l = [].
Proof.
  unfold len. simpl. rewrite Z.eqb_eq. destruct l; simpl; [tauto|].
  split; [lia | discriminate].
Qed.

Lemma isSoftError_spec (body : list byte) :
  isSoftError (Some body) = true <->
  body <> [] /\
  (occurs (slice_bytes signature_504) body \/
   occurs (slice_bytes signature_404) body \/
   occurs (slice_bytes signature_503) body).
Proof.
  unfold isSoftError, bytes_Contains.
  rewrite <- !Contains_spec.
  change (slice_bytes (Some body)) with body.
  destruct (len (Some body) =? 0) eqn:Hlen.
  - apply len_zero in Hlen. split; [discriminate | intros [H _]; contradiction].
  - assert (Hne : body <> []).
    { intros ->. discriminate. }
    destruct (Contains body (slice_bytes signature_504)),
             (Contains body (slice_bytes signature_404)),
             (Contains body (slice_bytes signature_503)); simpl;
      intuition discriminate.
Qed.

(** ** One attempt *)

Lemma advance_0_nil (w : World) : advance w 0 [] = w.
Proof.
  destruct w as [d f t]. unfold advance. simpl.
  rewrite Nat.add_0_r, app_nil_r. reflexivity.
Qed.

Lemma advance_advance (w : World) (n m : nat) (evs evs' : list Event) :
  advance (advance w n evs) m evs' = advance w (n + m) (evs ++ evs').
Proof.
  unfold advance. simpl. rewrite Nat.add_assoc, app_assoc. reflexivity.
Qed.

Lemma emit_run (e : Event) (w : World) : emit e w = (tt, advance w 0 [e]).
Proof. unfold emit, advance. rewrite Nat.add_0_r. reflexivity. Qed.

Lemma log_run (lvl : Level) (msg : string) (w : World) :
  log lvl msg w = (tt, advance w 0 [EvLog lvl msg]).
Proof. apply emit_run. Qed.

Lemma fetchURL_run (env : Env) (c : HTTPClient) (url : string) (w : World) :
  fetchURL env c url w =
  (attempt env c url (fetches w), advance w 1 [EvFetch (userAgent c) url]).
Proof.
  unfold fetchURL, bind, exchange, attempt, advance, ret. simpl.
  rewrite Nat.add_1_r.
  destruct (roundTrip env (fetches w) (userAgent c) url); try reflexivity.
  destruct (negb (StatusCode =? 200) || (len (Some Body) =? 0) || isSoftError (Some Body));
    reflexivity.
Qed.

Lemma wait_run (env : Env) (d : Z) (w : World) :
  wait env d w =
  (ctx_Done env (fetches w),
   advance w 0 [if ctx_Done env (fetches w) then EvCancelled d else EvWaited d]).
Proof. unfold wait, advance. rewrite Nat.add_0_r. reflexivity. Qed.

(** ** The retry loop *)

Lemma bind_run {A B : Type} (m : M A) (k : A -> M B) (w : World) :
  bind m k w = k (fst (m w)) (snd (m w)).
Proof. unfold bind. destruct (m w). reflexivity. Qed.

Lemma fetches_advance (w : World) (n : nat) (evs : list Event) :
  fetches (advance w n evs) = (fetches w + n)%nat.
Proof. reflexivity. Qed.

Section Loop.
Context (env : Env) (c : HTTPClient) (url : string).

(** One iteration of the loop whose guard holds. *)
Lemma GetRequest_loop_step (fuel : nat) (i : Z) (vars : Result) (w : World) :
  i <= retries c ->
  GetRequest_loop env (S fuel) c url i vars w =
  let r := attempt env c url (fetches w) in
  match Result_err r with
  | None => (inr r, advance w 1 [try_log url i; EvFetch (userAgent c) url])
  | Some err =>
      if i =? retries c
      then (inr r, advance w 1 [try_log url i; EvFetch (userAgent c) url])
      else if 0 <? retryDelay c then
        if ctx_Done env (S (fetches w))
        then (inl (-1, None, -1, None, Some (ctx_Err env)),
              advance w 1 [try_log url i; EvFetch (userAgent c) url; retry_log env c url i err;
                           EvCancelled (retryDelay c)])
        else GetRequest_loop env fuel c url (i + 1) r
               (advance w 1 [try_log url i; EvFetch (userAgent c) url; retry_log env c url i err;
                             EvWaited (retryDelay c)])
      else GetRequest_loop env fuel c url (i + 1) r
             (advance w 1 [try_log url i; EvFetch (userAgent c) url; retry_log env c url i err])
  end.
Proof.
  intros Hi. cbn [GetRequest_loop]. unfold retry_log, try_log.
  apply Z.leb_le in Hi. rewrite Hi.
  rewrite bind_run, log_run. cbn [fst snd].
  rewrite bind_run, fetchURL_run. cbn [fst snd].
  rewrite !advance_advance, fetches_advance, Nat.add_0_r. cbn [Nat.add List.app].
  cbv zeta.
  destruct (Result_err (attempt env c url (fetches w))) eqn:He; [|reflexivity].
  destruct (i =? retries c); [reflexivity|].
  destruct (0 <? retryDelay c).
  - rewrite bind_run, log_run. cbn [fst snd].
    rewrite bind_run, wait_run. cbn [fst snd].
    rewrite !advance_advance, !fetches_advance. cbn [Nat.add List.app].
    rewrite Nat.add_1_r.
    destruct (ctx_Done env (S (fetches w))); reflexivity.
  - rewrite bind_run, log_run. cbn [fst snd].
    rewrite !advance_advance. reflexivity.
Qed.

Lemma GetRequest_loop_exit (fuel : nat) (i : Z) (vars : Result) (w : World) :
  retries c < i ->
  GetRequest_loop env fuel c url i vars w = (inr vars, w).
Proof.
  intros Hi. destruct fuel; [reflexivity|].
  cbn [GetRequest_loop]. apply Z.leb_gt in Hi. rewrite Hi. reflexivity.
Qed.

(** The guard, not the fuel, ends the loop: any fuel that covers the
    iterations left gives the same result. *)
Lemma GetRequest_loop_fuel (fuel fuel' : nat) (i : Z) (vars : Result) (w : World) :
  (Z.to_nat (retries c - i + 1) <= fuel)%nat ->
  (Z.to_nat (retries c - i + 1) <= fuel')%nat ->
  GetRequest_loop env fuel c url i vars w = GetRequest_loop env fuel' c url i vars w.
Proof.
  revert fuel' i vars w.
  induction fuel as [|fuel IH]; intros fuel' i vars w H H'.
  - rewrite !GetRequest_loop_exit by lia. reflexivity.
  - destruct (Z_lt_le_dec (retries c) i) as [Hi | Hi].
    + rewrite !GetRequest_loop_exit by lia. reflexivity.
    + destruct fuel' as [|fuel']; [lia|].
      rewrite !GetRequest_loop_step by exact Hi. cbv zeta.
      destruct (Result_err (attempt env c url (fetches w))); [|reflexivity].
      destruct (i =? retries c); [reflexivity|].
      destruct (0 <? retryDelay c).
      * destruct (ctx_Done env (S (fetches w))); [reflexivity|].
        apply IH; lia.
      * apply IH; lia.
Qed.

(** In particular the fuel that [GetRequest] passes is enough. *)
Lemma GetRequest_fuel_enough (fuel : nat) (w : World) :
  (Z.to_nat (retries c) <= fuel)%nat ->
  GetRequest_loop env fuel c url 1 (0, None, 0, None, None) w =
  GetRequest_loop env (Z.to_nat (retries c)) c url 1 (0, None, 0, None, None) w.
Proof. intros H. apply GetRequest_loop_fuel; lia. Qed.

(** [m] failed attempts, none of them the last one and none with a
    cancelled wait, then an attempt that succeeds or is the last one:
    the loop is left with the results of that attempt. *)
Lemma GetRequest_loop_stops (m : nat) :
  forall (fuel : nat) (i : Z) (vars : Result) (w : World),
  (m < fuel)%nat ->
  i + Z.of_nat m <= retries c ->
  (forall j, (j < m)%nat -> Result_err (attempt env c url (fetches w + j)) <> None) ->
  (0 < retryDelay c -> forall j, (j < m)%nat -> ctx_Done env (fetches w + j + 1) = false) ->
  Result_err (attempt env c url (fetches w + m)) = None \/ i + Z.of_nat m = retries c ->
  exists evs,
    GetRequest_loop env fuel c url i vars w =
      (inr (attempt env c url (fetches w + m)), advance w (S m) evs) /\
    List.filter is_net evs = attempts_net (userAgent c) url (retryDelay c) m.
Proof.
  induction m as [|m IH]; intros fuel i vars w Hfuel Hi Hfail Hwait Hlast.
  - destruct fuel as [|fuel]; [lia|].
    rewrite GetRequest_loop_step by lia. cbv zeta.
    rewrite Nat.add_0_r in *.
    exists [try_log url i; EvFetch (userAgent c) url]. split; [|reflexivity].
    destruct Hlast as [Hok | Hend].
    + rewrite Hok. reflexivity.
    + destruct (Result_err (attempt env c url (fetches w))); [|reflexivity].
      replace (i =? retries c) with true by (symmetry; apply Z.eqb_eq; lia).
      reflexivity.
  - destruct fuel as [|fuel]; [lia|].
    rewrite GetRequest_loop_step by lia. cbv zeta.
    pose proof (Hfail O ltac:(lia)) as H0. rewrite Nat.add_0_r in H0.
    destruct (Result_err (attempt env c url (fetches w))) as [err|] eqn:He;
      [|contradiction].
    replace (i =? retries c) with false by (symmetry; apply Z.eqb_neq; lia).
    assert (Hshift : forall j, (fetches w + 1 + j = fetches w + S j)%nat) by (intros; lia).
    destruct (0 <? retryDelay c) eqn:Hd.
    + apply Z.ltb_lt in Hd.
      pose proof (Hwait Hd O ltac:(lia)) as Hc.
      replace (fetches w + 0 + 1)%nat with (S (fetches w)) in Hc by lia.
      rewrite Hc.
      edestruct (IH fuel (i + 1) (attempt env c url (fetches w))
                   (advance w 1 [try_log url i; EvFetch (userAgent c) url; retry_log env c url i err;
                                 EvWaited (retryDelay c)]))
        as [evs [Hrun Hnet]].
      * lia.
      * lia.
      * intros j Hj. rewrite fetches_advance, Hshift. apply Hfail. lia.
      * intros _ j Hj. rewrite fetches_advance, Hshift.
        apply (Hwait Hd (S j)). lia.
      * rewrite fetches_advance, Hshift. destruct Hlast; [left; assumption | right; lia].
      * rewrite Hrun, fetches_advance, Hshift, advance_advance.
        eexists. split; [reflexivity|].
        cbn [List.app]. unfold try_log, retry_log. cbn [List.filter is_net].
        rewrite Hnet. cbn [attempts_net]. apply Z.ltb_lt in Hd. rewrite Hd. reflexivity.
    + edestruct (IH fuel (i + 1) (attempt env c url (fetches w))
                   (advance w 1 [try_log url i; EvFetch (userAgent c) url; retry_log env c url i err]))
        as [evs [Hrun Hnet]].
      * lia.
      * lia.
      * intros j Hj. rewrite fetches_advance, Hshift. apply Hfail. lia.
      * intros Hpos. apply Z.ltb_ge in Hd. lia.
      * rewrite fetches_advance, Hshift. destruct Hlast; [left; assumption | right; lia].
      * rewrite Hrun, fetches_advance, Hshift, advance_advance.
        eexists. split; [reflexivity|].
        cbn [List.app]. unfold try_log, retry_log. cbn [List.filter is_net].
        rewrite Hnet. cbn [attempts_net]. rewrite Hd. reflexivity.
Qed.

(** [m] failed attempts with completed waits, then a failed attempt that
    is not the last one and whose wait is cancelled: [GetRequest] returns
    from inside the loop with [ctx.Err()]. *)
Lemma GetRequest_loop_cancelled (m : nat) :
  forall (fuel : nat) (i : Z) (vars : Result) (w : World),
  (m < fuel)%nat ->
  i + Z.of_nat m < retries c ->
  0 < retryDelay c ->
  (forall j, (j <= m)%nat -> Result_err (attempt env c url (fetches w + j)) <> None) ->
  (forall j, (j < m)%nat -> ctx_Done env (fetches w + j + 1) = false) ->
  ctx_Done env (fetches w + m + 1) = true ->
  exists evs,
    GetRequest_loop env fuel c url i vars w =
      (inl (-1, None, -1, None, Some (ctx_Err env)), advance w (S m) evs) /\
    List.filter is_net evs = cancelled_net (userAgent c) url (retryDelay c) m.
Proof.
  induction m as [|m IH]; intros fuel i vars w Hfuel Hi Hd Hfail Hwait Hcancel.
  - destruct fuel as [|fuel]; [lia|].
    rewrite GetRequest_loop_step by lia. cbv zeta.
    pose proof (Hfail O ltac:(lia)) as H0. rewrite Nat.add_0_r in H0.
    destruct (Result_err (attempt env c url (fetches w))) as [err|]; [|contradiction].
    replace (i =? retries c) with false by (symmetry; apply Z.eqb_neq; lia).
    replace (0 <? retryDelay c) with true by (symmetry; apply Z.ltb_lt; lia).
    replace (fetches w + 0 + 1)%nat with (S (fetches w)) in Hcancel by lia.
    rewrite Hcancel. eexists. split; reflexivity.
  - destruct fuel as [|fuel]; [lia|].
    rewrite GetRequest_loop_step by lia. cbv zeta.
    pose proof (Hfail O ltac:(lia)) as H0. rewrite Nat.add_0_r in H0.
    destruct (Result_err (attempt env c url (fetches w))) as [err|]; [|contradiction].
    replace (i =? retries c) with false by (symmetry; apply Z.eqb_neq; lia).
    replace (0 <? retryDelay c) with true by (symmetry; apply Z.ltb_lt; lia).
    pose proof (Hwait O ltac:(lia)) as Hc.
    replace (fetches w + 0 + 1)%nat with (S (fetches w)) in Hc by lia.
    rewrite Hc.
    assert (Hshift : forall j, (fetches w + 1 + j = fetches w + S j)%nat) by (intros; lia).
    edestruct (IH fuel (i + 1) (attempt env c url (fetches w))
                 (advance w 1 [try_log url i; EvFetch (userAgent c) url; retry_log env c url i err;
                               EvWaited (retryDelay c)]))
      as [evs [Hrun Hnet]].
    + lia.
    + lia.
    + exact Hd.
    + intros j Hj. rewrite fetches_advance, Hshift. apply Hfail. lia.
    + intros j Hj. rewrite fetches_advance, Hshift. apply (Hwait (S j)). lia.
    + rewrite fetches_advance, Hshift. exact Hcancel.
    + rewrite Hrun, advance_advance.
      eexists. split; [reflexivity|].
      cbn [List.app]. unfold try_log, retry_log. cbn [List.filter is_net].
      rewrite Hnet. reflexivity.
Qed.

End Loop.

(** ** GetRequest *)

Section GetRequestProps.
Context (env : Env) (c : HTTPClient) (url : string).

Lemma GetRequest_run (w : World) :
  GetRequest env c url w =
  (match fst (GetRequest_loop env (Z.to_nat (retries c)) c url 1 (0, None, 0, None, None) w) with
   | inl r => r
   | inr vars => surface vars
   end,
   snd (GetRequest_loop env (Z.to_nat (retries c)) c url 1 (0, None, 0, None, None) w)).
Proof.
  unfold GetRequest. rewrite bind_run.
  destruct (GetRequest_loop env (Z.to_nat (retries c)) c url 1 (0, None, 0, None, None) w)
    as [[r | vars] w'] eqn:Hloop; cbn [fst snd]; [reflexivity|].
  destruct vars as [[[[statusCode hdr] requestDuration] body] [err|]]; reflexivity.
Qed.

(** Whatever the environment answers, and whatever the trace and the
    store are, the loop only appends to the trace, calls [fetchURL] no
    more often than the guard allows, sends no mail, leaves the store
    alone, and does not wait without a delay.  What it returns and what it
    appends depend on the world through the number of earlier calls only. *)
Lemma GetRequest_loop_shape (fuel : nat) :
  forall (i : Z) (vars : Result) (f : nat),
  exists out n evs,
    (forall w, fetches w = f ->
       GetRequest_loop env fuel c url i vars w = (out, advance w n evs)) /\
    Z.of_nat n <= Z.max 0 (retries c - i + 1) /\
    length (List.filter is_fetch evs) = n /\
    List.filter is_mail evs = [] /\
    List.filter is_store evs = [] /\
    (retryDelay c <= 0 -> List.filter is_wait evs = []).
Proof.
  induction fuel as [|fuel IH]; intros i vars f.
  - exists (inr vars), O, []. split.
    + intros w _. rewrite advance_0_nil. reflexivity.
    + repeat split; simpl; try reflexivity. lia.
  - destruct (Z_lt_le_dec (retries c) i) as [Hi | Hi].
    + exists (inr vars), O, []. split.
      * intros w _. rewrite advance_0_nil. apply GetRequest_loop_exit. exact Hi.
      * repeat split; simpl; try reflexivity. lia.
    + assert (Hone : exists out n evs,
                 (forall w, fetches w = f ->
                    (inr (attempt env c url (fetches w)) : Result + Result,
                     advance w 1 [try_log url i; EvFetch (userAgent c) url])
                    = (out, advance w n evs)) /\
                 Z.of_nat n <= Z.max 0 (retries c - i + 1) /\
                 length (List.filter is_fetch evs) = n /\
                 List.filter is_mail evs = [] /\
                 List.filter is_store evs = [] /\
                 (retryDelay c <= 0 -> List.filter is_wait evs = [])).
      { exists (inr (attempt env c url f)), 1%nat, [try_log url i; EvFetch (userAgent c) url].
        split; [intros w <-; reflexivity|].
        repeat split; simpl; try reflexivity. lia. }
      destruct (Result_err (attempt env c url f)) as [err|] eqn:He.
      2: { destruct Hone as (out & n & evs & Hrun & H). exists out, n, evs.
           split; [|exact H]. intros w Hw.
           rewrite GetRequest_loop_step by exact Hi. cbv zeta.
           rewrite Hw, He, <- Hw. apply Hrun. exact Hw. }
      destruct (i =? retries c) eqn:Hlast.
      { destruct Hone as (out & n & evs & Hrun & H). exists out, n, evs.
        split; [|exact H]. intros w Hw.
        rewrite GetRequest_loop_step by exact Hi. cbv zeta.
        rewrite Hw, He, Hlast, <- Hw. apply Hrun. exact Hw. }
      apply Z.eqb_neq in Hlast.
      destruct (0 <? retryDelay c) eqn:Hd.
      * destruct (ctx_Done env (S f)) eqn:Hc.
        -- exists (inl (-1, None, -1, None, Some (ctx_Err env))), 1%nat.
           eexists. split.
           ++ intros w Hw. rewrite GetRequest_loop_step by exact Hi. cbv zeta.
              rewrite Hw, He, Hd, Hc.
              replace (i =? retries c) with false by (symmetry; apply Z.eqb_neq; lia).
              reflexivity.
           ++ apply Z.ltb_lt in Hd. repeat split; simpl; try reflexivity; lia.
        -- destruct (IH (i + 1) (attempt env c url f) (f + 1)%nat)
             as (out & n & evs & Hrun & Hn & Hf & Hm & Hs & Hw).
           exists out, (1 + n)%nat. eexists. split.
           ++ intros w Hfw. rewrite GetRequest_loop_step by exact Hi. cbv zeta.
              rewrite Hfw, He, Hd, Hc.
              replace (i =? retries c) with false by (symmetry; apply Z.eqb_neq; lia).
              rewrite Hrun by (rewrite fetches_advance; lia).
              rewrite advance_advance. reflexivity.
           ++ apply Z.ltb_lt in Hd.
              rewrite !List.filter_app, Hm, Hs. cbn [List.app].
              repeat split; simpl; try reflexivity; try lia.
      * destruct (IH (i + 1) (attempt env c url f) (f + 1)%nat)
          as (out & n & evs & Hrun & Hn & Hf & Hm & Hs & Hw).
        exists out, (1 + n)%nat. eexists. split.
        -- intros w Hfw. rewrite GetRequest_loop_step by exact Hi. cbv zeta.
           rewrite Hfw, He, Hd.
           replace (i =? retries c) with false by (symmetry; apply Z.eqb_neq; lia).
           rewrite Hrun by (rewrite fetches_advance; lia).
           rewrite advance_advance. reflexivity.
        -- apply Z.ltb_ge in Hd.
           rewrite !List.filter_app, Hm, Hs. cbn [List.app].
           repeat split; simpl; try reflexivity; try lia.
           intros _. apply Hw. exact Hd.
Qed.

Lemma GetRequest_shape (f : nat) :
  exists r n evs,
    (forall w, fetches w = f -> GetRequest env c url w = (r, advance w n evs)) /\
    Z.of_nat n <= Z.max 0 (retries c) /\
    length (List.filter is_fetch evs) = n /\
    List.filter is_mail evs = [] /\
    List.filter is_store evs = [] /\
    (retryDelay c <= 0 -> List.filter is_wait evs = []).
Proof.
  destruct (GetRequest_loop_shape (Z.to_nat (retries c)) 1 (0, None, 0, None, None) f)
    as (out & n & evs & Hrun & Hn & H).
  exists (match out with inl r => r | inr vars => surface vars end), n, evs.
  split; [|split; [lia | exact H]].
  intros w Hw. rewrite GetRequest_run, Hrun by exact Hw. reflexivity.
Qed.

Lemma GetRequest_stops (w : World) (m : nat) :
  Z.of_nat m < retries c ->
  fail_before env c url w m ->
  waits_complete env c w m ->
  Result_err (attempt env c url (fetches w + m)) = None \/ Z.of_nat (S m) = retries c ->
  exists evs,
    GetRequest env c url w =
      (surface (attempt env c url (fetches w + m)), advance w (S m) evs) /\
    List.filter is_net evs = attempts_net (userAgent c) url (retryDelay c) m.
Proof.
  intros Hm Hfail Hwait Hlast.
  destruct (GetRequest_loop_stops env c url m (Z.to_nat (retries c)) 1
              (0, None, 0, None, None) w) as [evs [Hrun Hnet]];
    [lia | lia | exact Hfail | exact Hwait | destruct Hlast; [left; assumption | right; lia] |].
  exists evs. split; [|exact Hnet].
  rewrite GetRequest_run, Hrun. reflexivity.
Qed.

Lemma GetRequest_cancelled (w : World) (m : nat) :
  Z.of_nat (S m) < retries c ->
  0 < retryDelay c ->
  fail_before env c url w (S m) ->
  waits_complete env c w m ->
  ctx_Done env (fetches w + m + 1) = true ->
  exists evs,
    GetRequest env c url w =
      ((-1, None, -1, None, Some (ctx_Err env)), advance w (S m) evs) /\
    List.filter is_net evs = cancelled_net (userAgent c) url (retryDelay c) m.
Proof.
  intros Hm Hd Hfail Hwait Hcancel.
  destruct (GetRequest_loop_cancelled env c url m (Z.to_nat (retries c)) 1
              (0, None, 0, None, None) w) as [evs [Hrun Hnet]];
    [lia | lia | exact Hd | intros j Hj; apply Hfail; lia
     | intros j Hj; apply Hwait; [exact Hd | exact Hj] | exact Hcancel |].
  exists evs. split; [|exact Hnet].
  rewrite GetRequest_run, Hrun. reflexivity.
Qed.

(** Without retries the loop body never runs. *)
Lemma GetRequest_idle (w : World) :
  retries c <= 0 ->
  GetRequest env c url w = ((0, None, 0, None, None), w).
Proof.
  intros H. rewrite GetRequest_run, GetRequest_loop_exit by lia. reflexivity.
Qed.

End GetRequestProps.

(** ** The pipeline *)

Lemma logs_silent (evs : list Event) :
  forallb is_log evs = true ->
  List.filter is_mail evs = [] /\ List.filter is_store evs = [] /\
  List.filter is_net evs = [].
Proof.
  induction evs as [|e evs IH]; [intros _; repeat split|].
  cbn [forallb]. rewrite andb_true_iff. intros [He Hevs].
  destruct (IH Hevs) as (Hm & Hs & Hn).
  destruct e; try discriminate. cbn [List.filter is_mail is_store is_net].
  repeat split; assumption.
Qed.

Lemma ignored_spec (StatusCode : Z) (ignore : list Z) :
  ignored StatusCode ignore = true <-> In StatusCode ignore.
Proof.
  induction ignore as [|i rest IH]; cbn [ignored In].
  - split; [discriminate | contradiction].
  - destruct (StatusCode =? i) eqn:Heq.
    + apply Z.eqb_eq in Heq. split; [intros _; left; symmetry; exact Heq | reflexivity].
    + apply Z.eqb_neq in Heq. rewrite IH. split; [right; assumption|].
      intros [H | H]; [symmetry in H; contradiction | exact H].
Qed.

Lemma put_advance (w : World) (n : nat) (evs : list Event) (url : string) (content : list byte) :
  put (advance w n evs) url content =
  {| db := <[url := content]> (db w); fetches := (fetches w + n)%nat;
     trace := trace w ++ evs ++ [EvSetDatabaseEntry url content] |}.
Proof. unfold put, advance. cbn. rewrite <- app_assoc. reflexivity. Qed.

Lemma SetDatabaseEntry_run (url : string) (content : slice) (w : World) :
  SetDatabaseEntry url content w = (tt, put w url (slice_bytes content)).
Proof. reflexivity. Qed.

Section PipelineProps.
Context (env : Env).

Lemma extractContent_spec (watch : Watch) (body : slice) :
  extractContent env watch body = spec_extract (regexp env) (Pattern watch) body.
Proof.
  unfold extractContent, spec_extract.
  destruct (decide (Pattern watch = EmptyString)) as [-> | Hne]; [reflexivity|].
  destruct (Pattern watch) as [|ch rest]; [contradiction|].
  destruct (Compile (regexp env) (String ch rest)) as [re | err]; [|reflexivity].
  cbv zeta.
  destruct (FindSubmatch (regexp env) re body) as [|whole [|group1 more]];
    try reflexivity.
  replace (Z.of_nat (length (whole :: group1 :: more)) <? 2) with false; [reflexivity|].
  symmetry. apply Z.ltb_ge. cbn [length]. lia.
Qed.

Lemma applyReplaces_run (replaces : list ReplacePattern) :
  forall body : slice,
  exists evs,
    forallb is_log evs = true /\
    forall w, applyReplaces env replaces body w =
              (spec_replace (regexp env) (ReplaceAll (regexp env)) replaces body,
               advance w 0 evs).
Proof.
  induction replaces as [|replace rest IH]; intros body.
  - exists []. split; [reflexivity|]. intros w. rewrite advance_0_nil. reflexivity.
  - cbn [applyReplaces spec_replace].
    destruct (Compile (regexp env) (Replace_Pattern replace)) as [re | err].
    + destruct (IH (ReplaceAll (regexp env) re body (bytes_of_string (ReplaceWith replace))))
        as (evs & Hlogs & Hrun).
      eexists. split; [|intros w].
      2: { rewrite bind_run, log_run. cbn [fst snd].
           rewrite bind_run, log_run. cbn [fst snd].
           rewrite Hrun, !advance_advance. reflexivity. }
      cbn [List.app forallb is_log]. exact Hlogs.
    + eexists. split; [|intros w].
      2: { rewrite bind_run, log_run. cbn [fst snd]. reflexivity. }
      reflexivity.
Qed.

(** Lines 197-218 compute the transformation and emit log lines only. *)
Lemma processBody_run (a : app) (watch : Watch) (lastContent : slice)
    (statusCode requestDuration : Z) (body : slice) :
  exists evs,
    forallb is_log evs = true /\
    forall w,
      processBody env a watch lastContent statusCode requestDuration body w =
      match transform_template (regexp env) watch body with
      | inr err => (Some err, advance w 0 evs)
      | inl body' =>
          compareAndStore env a watch lastContent statusCode requestDuration body'
            (advance w 0 evs)
      end.
Proof.
  unfold processBody, transform_template, spec_transform.
  rewrite extractContent_spec.
  destruct (spec_extract (regexp env) (Pattern watch) body) as [body1 | err].
  - destruct (applyReplaces_run (Replaces watch) body1) as (evs & Hlogs & Hrun).
    exists evs. split; [exact Hlogs|]. intros w.
    rewrite bind_run, Hrun. cbn [fst snd].
    destruct (spec_replace (regexp env) (ReplaceAll (regexp env)) (Replaces watch) body1);
      reflexivity.
  - exists []. split; [reflexivity|]. intros w. rewrite advance_0_nil. reflexivity.
Qed.

(** Up to the return of [GetRequest], [processWatch] reads the snapshot,
    logs and fetches; it then goes on with the error or with the body. *)
Lemma processWatch_run (a : app) (watch : Watch) (w : World) :
  exists n evs,
    List.filter is_mail evs = [] /\
    List.filter is_store evs = [] /\
    processWatch env a watch w =
    (let '(statusCode, _, requestDuration, body, err) :=
       fst (GetRequest env (httpClient a) (URL watch) w) in
     match err with
     | Some err => handleRequestError env a watch requestDuration err
     | None => processBody env a watch (db w !! URL watch) statusCode requestDuration body
     end) (advance w n evs).
Proof.
  destruct (GetRequest_shape env (httpClient a) (URL watch) (fetches w))
    as (r & n & evs & Hrun & _ & _ & Hm & Hs & _).
  exists n, (EvLog InfoLevel ("processing " +:+ Name watch +:+ ": " +:+ URL watch) :: evs).
  cbn [List.filter is_mail is_store]. split; [exact Hm|]. split; [exact Hs|].
  unfold processWatch.
  rewrite bind_run, log_run. cbn [fst snd].
  rewrite bind_run. unfold GetDatabaseEntry at 1 2. cbn [fst snd].
  rewrite bind_run.
  rewrite (Hrun w) by reflexivity.
  rewrite (Hrun (advance w 0 _)) by (rewrite fetches_advance; lia).
  cbn [fst snd]. rewrite advance_advance. cbn [Nat.add List.app advance db].
  destruct r as [[[[statusCode hdr] requestDuration] body] err]. reflexivity.
Qed.

End PipelineProps.

Lemma bytes_Equal_spec (a b : slice) :
  bytes_Equal a b = true <-> slice_bytes a = slice_bytes b.
Proof. unfold bytes_Equal. apply bool_decide_eq_true. Qed.

Section CompareProps.
Context (env : Env) (a : app) (watch : Watch).

Lemma watchTask_done (w w' : World) :
  processWatch env a watch w = (None, w') ->
  watchTask env a watch w = (tt, w').
Proof. intros H. unfold watchTask. rewrite bind_run, H. reflexivity. Qed.

Lemma compareAndStore_new (statusCode requestDuration : Z) (body : slice) (w : World) :
  exists evs,
    forallb is_log evs = true /\
    compareAndStore env a watch None statusCode requestDuration body w =
    (None, put (advance w 0 evs) (URL watch) (slice_bytes body)).
Proof.
  eexists. split; [|unfold compareAndStore].
  2: { rewrite bind_run, log_run. cbn [fst snd].
       rewrite bind_run, SetDatabaseEntry_run. reflexivity. }
  reflexivity.
Qed.

Lemma compareAndStore_same (old : list byte) (statusCode requestDuration : Z)
    (body : slice) (w : World) :
  old = slice_bytes body ->
  compareAndStore env a watch (Some old) statusCode requestDuration body w =
  (None, put w (URL watch) (slice_bytes body)).
Proof.
  intros Hsame. unfold compareAndStore.
  replace (bytes_Equal (Some old) body) with true
    by (symmetry; apply bytes_Equal_spec; exact Hsame).
  cbn [negb]. rewrite bind_run. cbn [ret fst snd].
  rewrite bind_run, SetDatabaseEntry_run. reflexivity.
Qed.

Lemma compareAndStore_changed (old : list byte) (statusCode requestDuration : Z)
    (body : slice) (w : World) :
  old <> slice_bytes body ->
  compareAndStore env a watch (Some old) statusCode requestDuration body w =
  if testMode a then
    (None, put (advance w 0 [would_send_log watch]) (URL watch) (slice_bytes body))
  else
    let text1 := string_of_list_byte old in
    let text2 := string_of_bytes body in
    let told := [EvLog InfoLevel (change_subject watch); EvDiffAPI text1 text2] in
    match diff_DiffAPI env text1 text2 with
    | inr err => (Some (Wrapf "error on creating htmlcontent" err), advance w 0 told)
    | inl (css, html) =>
        let content :=
          change_html css html (change_text env watch statusCode requestDuration body) in
        let sent := told ++ [EvSendHTMLEmail watch (change_subject watch) content] in
        match mailer_SendHTMLEmail env watch (change_subject watch) content with
        | Some err => (Some (Wrapf "error on sending email" err), advance w 0 sent)
        | None => (None, put (advance w 0 sent) (URL watch) (slice_bytes body))
        end
    end.
Proof.
  intros Hdiff. unfold compareAndStore.
  replace (bytes_Equal (Some old) body) with false.
  2: { symmetry. apply not_true_is_false. rewrite bytes_Equal_spec. exact Hdiff. }
  cbn [negb].
  unfold notifyChange, generateHTMLContentForEmail, DiffAPI, SendHTMLEmail,
    SetDatabaseEntry, would_send_log, change_html, change_text, change_subject,
    put, advance.
  change (string_of_bytes (Some old)) with (string_of_list_byte old).
  rewrite Nat.add_0_r.
  destruct (testMode a); [reflexivity|].
  cbv beta iota zeta delta [bind ret emit log fst snd db fetches trace].
  destruct (diff_DiffAPI env (string_of_list_byte old) (string_of_bytes body))
    as [[css html] | err]; [|rewrite <- app_assoc; reflexivity].
  destruct (mailer_SendHTMLEmail env watch _ _);
    rewrite <- !app_assoc; reflexivity.
Qed.

(** A body that [GetRequest] returned without error and that the
    transformation accepts reaches the comparison, after events that are
    neither mails nor store writes. *)
Lemma processWatch_compares (w : World) (statusCode requestDuration : Z)
    (hdr : header) (fetched body : slice) :
  fst (GetRequest env (httpClient a) (URL watch) w)
    = (statusCode, hdr, requestDuration, fetched, None) ->
  transform_template (regexp env) watch fetched = inl body ->
  exists n evs,
    List.filter is_mail evs = [] /\
    List.filter is_store evs = [] /\
    processWatch env a watch w =
    compareAndStore env a watch (db w !! URL watch) statusCode requestDuration body
      (advance w n evs).
Proof.
  intros Hget Htransform.
  destruct (processWatch_run env a watch w) as (n & evs & Hm & Hs & Hrun).
  destruct (processBody_run env a watch (db w !! URL watch) statusCode requestDuration fetched)
    as (logs & Hlogs & Hbody).
  destruct (logs_silent logs Hlogs) as (Hlm & Hls & _).
  exists n, (evs ++ logs).
  rewrite !List.filter_app, Hm, Hs, Hlm, Hls.
  split; [reflexivity|]. split; [reflexivity|].
  rewrite Hrun, Hget, Hbody, Htransform, advance_advance, Nat.add_0_r. reflexivity.
Qed.

(** The run on an unchanged resource, used for one run and for two. *)
Lemma processWatch_unchanged (w : World) (statusCode requestDuration : Z)
    (hdr : header) (fetched body : slice) :
  db w !! URL watch = Some (slice_bytes body) ->
  fst (GetRequest env (httpClient a) (URL watch) w)
    = (statusCode, hdr, requestDuration, fetched, None) ->
  transform_template (regexp env) watch fetched = inl body ->
  exists n evs,
    List.filter is_mail evs = [] /\
    List.filter is_store evs = [] /\
    processWatch env a watch w =
      (None, put (advance w n evs) (URL watch) (slice_bytes body)) /\
    db (put (advance w n evs) (URL watch) (slice_bytes body)) = db w.
Proof.
  intros Hlast Hget Htransform.
  destruct (processWatch_compares w statusCode requestDuration hdr fetched body Hget Htransform)
    as (n & evs & Hm & Hs & Hrun).
  exists n, evs. split; [exact Hm|]. split; [exact Hs|].
  rewrite Hrun, Hlast. split.
  - apply compareAndStore_same. reflexivity.
  - cbn [put advance db]. apply insert_id. exact Hlast.
Qed.

End CompareProps.

(** * The claims *)

(** C2 (NewResource).  A watch with no snapshot entry, whose fetch and
    transformation succeed, is processed without error: the transformed
    body is written to the store under the URL of the watch, this is the
    only store write, and no mail is sent, whatever was fetched; the task
    of the scheduler sends no mail either. *)
Theorem new_resource_stored_silently (env : Env) (a : app) (watch : Watch) (w : World)
    (statusCode requestDuration : Z) (hdr : header) (fetched body : slice) :
  db w !! URL watch = None ->
  fst (GetRequest env (httpClient a) (URL watch) w)
    = (statusCode, hdr, requestDuration, fetched, None) ->
  transform_template (regexp env) watch fetched = inl body ->
  exists n evs,
    List.filter is_mail evs = [] /\
    List.filter is_store evs = [] /\
    processWatch env a watch w =
      (None, put (advance w n evs) (URL watch) (slice_bytes body)) /\
    watchTask env a watch w =
      (tt, put (advance w n evs) (URL watch) (slice_bytes body)) /\
    db (put (advance w n evs) (URL watch) (slice_bytes body)) !! URL watch
      = Some (slice_bytes body).
Proof.
  intros Hlast Hget Htransform.
  destruct (processWatch_compares env a watch w statusCode requestDuration hdr fetched body
              Hget Htransform) as (n & evs & Hm & Hs & Hrun).
  rewrite Hlast in Hrun.
  destruct (compareAndStore_new env a watch statusCode requestDuration body (advance w n evs))
    as (logs & Hlogs & Hnew).
  destruct (logs_silent logs Hlogs) as (Hlm & Hls & _).
  rewrite Hnew, advance_advance, Nat.add_0_r in Hrun.
  exists n, (evs ++ logs).
  rewrite !List.filter_app, Hm, Hs, Hlm, Hls.
  split; [reflexivity|]. split; [reflexivity|]. split; [exact Hrun|].
  split; [apply watchTask_done; exact Hrun|].
  cbn [put advance db]. apply lookup_insert_eq.
Qed.

Lemma new_resource_stored_silently_witness :
  let env := Sample.env_of (fun _ => Sample.ok "v1") true true in
  let a := Sample.app_of 3 1000000000 [] false in
  let w := Sample.store [] in
  db w !! URL Sample.watchA = None /\
  exists n evs,
    List.filter is_mail evs = [] /\
    List.filter is_store evs = [] /\
    processWatch env a Sample.watchA w =
      (None, put (advance w n evs) (URL Sample.watchA) (list_byte_of_string "v1")) /\
    watchTask env a Sample.watchA w =
      (tt, put (advance w n evs) (URL Sample.watchA) (list_byte_of_string "v1")) /\
    db (put (advance w n evs) (URL Sample.watchA) (list_byte_of_string "v1"))
      !! URL Sample.watchA = Some (list_byte_of_string "v1").
Proof.
  intros env a w. split; [reflexivity|].
  apply (new_resource_stored_silently env a Sample.watchA w 200 12000000
           (Some [("Content-Type", ["text/html"])])
           (Some (list_byte_of_string "v1")) (Some (list_byte_of_string "v1")));
    reflexivity.
Defined.

(** C3 (Unchanged).  A watch whose snapshot entry equals, byte for byte,
    the fetched and transformed content is processed without error: no mail
    is sent, and the one store write puts the same bytes under the URL
    again, which leaves the store as it was. *)
Theorem unchanged_rewrites_same_bytes (env : Env) (a : app) (watch : Watch) (w : World)
    (statusCode requestDuration : Z) (hdr : header) (fetched body : slice) :
  db w !! URL watch = Some (slice_bytes body) ->
  fst (GetRequest env (httpClient a) (URL watch) w)
    = (statusCode, hdr, requestDuration, fetched, None) ->
  transform_template (regexp env) watch fetched = inl body ->
  exists n evs,
    List.filter is_mail evs = [] /\
    List.filter is_store evs = [] /\
    processWatch env a watch w =
      (None, put (advance w n evs) (URL watch) (slice_bytes body)) /\
    watchTask env a watch w =
      (tt, put (advance w n evs) (URL watch) (slice_bytes body)) /\
    db (put (advance w n evs) (URL watch) (slice_bytes body)) = db w.
Proof.
  intros Hlast Hget Htransform.
  destruct (processWatch_unchanged env a watch w statusCode requestDuration hdr fetched body
              Hlast Hget Htransform) as (n & evs & Hm & Hs & Hrun & Hdb).
  exists n, evs. repeat split; try assumption.
  apply watchTask_done. exact Hrun.
Qed.

Lemma unchanged_rewrites_same_bytes_witness :
  let env := Sample.env_of (fun _ => Sample.ok "v1") true true in
  let a := Sample.app_of 3 1000000000 [] false in
  let w := Sample.store [("https://a.example/", "v1")] in
  db w !! URL Sample.watchA = Some (list_byte_of_string "v1") /\
  exists n evs,
    List.filter is_mail evs = [] /\
    List.filter is_store evs = [] /\
    processWatch env a Sample.watchA w =
      (None, put (advance w n evs) (URL Sample.watchA) (list_byte_of_string "v1")) /\
    watchTask env a Sample.watchA w =
      (tt, put (advance w n evs) (URL Sample.watchA) (list_byte_of_string "v1")) /\
    db (put (advance w n evs) (URL Sample.watchA) (list_byte_of_string "v1")) = db w.
Proof.
  intros env a w. split; [reflexivity|].
  apply (unchanged_rewrites_same_bytes env a Sample.watchA w 200 12000000
           (Some [("Content-Type", ["text/html"])])
           (Some (list_byte_of_string "v1")) (Some (list_byte_of_string "v1")));
    reflexivity.
Defined.

(** C1 (Changed), as the code has it.  A watch whose snapshot entry
    differs from the fetched and transformed content: in test mode no mail
    is sent, the difference is logged, and the store entry becomes the new
    content; otherwise the diff is rendered and, when that succeeds, exactly
    one change notification is handed to the mailer, and the store entry
    becomes the new content when the mailer accepts it.  When rendering or
    sending fails, [processWatch] returns the error and writes nothing. *)
Theorem changed_notifies_then_stores (env : Env) (a : app) (watch : Watch) (w : World)
    (statusCode requestDuration : Z) (hdr : header) (fetched body : slice)
    (old : list byte) :
  db w !! URL watch = Some old ->
  fst (GetRequest env (httpClient a) (URL watch) w)
    = (statusCode, hdr, requestDuration, fetched, None) ->
  transform_template (regexp env) watch fetched = inl body ->
  old <> slice_bytes body ->
  exists n evs,
    List.filter is_store evs = [] /\
    if testMode a then
      List.filter is_mail evs = [] /\
      In (would_send_log watch) evs /\
      processWatch env a watch w =
        (None, put (advance w n evs) (URL watch) (slice_bytes body))
    else
      match diff_DiffAPI env (string_of_list_byte old) (string_of_bytes body) with
      | inr err =>
          List.filter is_mail evs = [] /\
          processWatch env a watch w =
            (Some (Wrapf "error on creating htmlcontent" err), advance w n evs)
      | inl (css, html) =>
          let content :=
            change_html css html (change_text env watch statusCode requestDuration body) in
          List.filter is_mail evs = [EvSendHTMLEmail watch (change_subject watch) content] /\
          match mailer_SendHTMLEmail env watch (change_subject watch) content with
          | Some err =>
              processWatch env a watch w =
                (Some (Wrapf "error on sending email" err), advance w n evs)
          | None =>
              processWatch env a watch w =
                (None, put (advance w n evs) (URL watch) (slice_bytes body))
          end
      end.
Proof.
  intros Hlast Hget Htransform Hdiff.
  destruct (processWatch_compares env a watch w statusCode requestDuration hdr fetched body
              Hget Htransform) as (n & evs & Hm & Hs & Hrun).
  rewrite Hlast, compareAndStore_changed in Hrun by exact Hdiff.
  destruct (testMode a).
  - exists n, (evs ++ [would_send_log watch]).
    rewrite advance_advance, Nat.add_0_r in Hrun.
    rewrite !List.filter_app, Hm, Hs.
    split; [reflexivity|]. split; [reflexivity|]. split; [|exact Hrun].
    apply in_or_app. right. left. reflexivity.
  - cbv zeta in Hrun.
    destruct (diff_DiffAPI env (string_of_list_byte old) (string_of_bytes body))
      as [[css html] | err].
    + cbv zeta.
      exists n, (evs ++ [EvLog InfoLevel (change_subject watch);
                         EvDiffAPI (string_of_list_byte old) (string_of_bytes body);
                         EvSendHTMLEmail watch (change_subject watch)
                           (change_html css html
                              (change_text env watch statusCode requestDuration body))]).
      cbn [List.app] in Hrun.
      rewrite !advance_advance, Nat.add_0_r in Hrun.
      rewrite !List.filter_app, Hm, Hs.
      split; [reflexivity|]. split; [reflexivity|].
      destruct (mailer_SendHTMLEmail env watch (change_subject watch)
                  (change_html css html
                     (change_text env watch statusCode requestDuration body)));
        exact Hrun.
    + exists n, (evs ++ [EvLog InfoLevel (change_subject watch);
                         EvDiffAPI (string_of_list_byte old) (string_of_bytes body)]).
      rewrite advance_advance, Nat.add_0_r in Hrun.
      rewrite !List.filter_app, Hm, Hs.
      split; [reflexivity|]. split; [reflexivity|]. exact Hrun.
Qed.

Lemma changed_notifies_then_stores_witness :
  let env := Sample.env_of (fun _ => Sample.ok "v2") true true in
  let a := Sample.app_of 3 1000000000 [] false in
  let w := Sample.store [("https://a.example/", "v1")] in
  (db w !! URL Sample.watchA = Some (list_byte_of_string "v1") /\
   list_byte_of_string "v1" <> list_byte_of_string "v2") /\
  exists n evs content,
    List.filter is_store evs = [] /\
    List.filter is_mail evs = [EvSendHTMLEmail Sample.watchA "Detected change on A" content] /\
    processWatch env a Sample.watchA w =
      (None, put (advance w n evs) (URL Sample.watchA) (list_byte_of_string "v2")).
Proof.
  intros env a w. split; [split; [reflexivity | discriminate]|].
  destruct (changed_notifies_then_stores env a Sample.watchA w 200 12000000
              (Some [("Content-Type", ["text/html"])])
              (Some (list_byte_of_string "v2")) (Some (list_byte_of_string "v2"))
              (list_byte_of_string "v1"))
    as (n & evs & Hs & Hm & Hrun);
    [reflexivity | reflexivity | reflexivity | discriminate |].
  exists n, evs. eexists. split; [exact Hs|]. split; [exact Hm | exact Hrun].
Defined.

(** C1, the claim as it stands fails: with a snapshot "v1" and a page that
    now reads "v2", the store keeps "v1" when the mailer refuses the
    notification, and when the diff cannot be rendered no notification is
    attempted at all. *)
Lemma changed_store_kept_on_failure :
  let a := Sample.app_of 3 1000000000 [] false in
  let w := Sample.store [("https://a.example/", "v1")] in
  let mail_down := Sample.env_of (fun _ => Sample.ok "v2") true false in
  let diff_down := Sample.env_of (fun _ => Sample.ok "v2") false true in
  db w !! "https://a.example/" = Some (list_byte_of_string "v1") /\
  (fst (processWatch mail_down a Sample.watchA w)
     = Some (Wrapf "error on sending email" (ErrorString "dial tcp: connection refused")) /\
   db (snd (processWatch mail_down a Sample.watchA w)) !! "https://a.example/"
     = Some (list_byte_of_string "v1") /\
   length (List.filter is_mail (trace (snd (processWatch mail_down a Sample.watchA w)))) = 1%nat) /\
  (fst (processWatch diff_down a Sample.watchA w)
     = Some (Wrapf "error on creating htmlcontent" (ErrorString "diff service unreachable")) /\
   db (snd (processWatch diff_down a Sample.watchA w)) !! "https://a.example/"
     = Some (list_byte_of_string "v1") /\
   List.filter is_mail (trace (snd (processWatch diff_down a Sample.watchA w))) = []).
Proof. vm_compute. repeat split. Qed.



(** ** Errors of the fetch *)


Section ErrorProps.
Context (env : Env) (a : app) (watch : Watch).

Lemma handleRequestError_invalid (requestDuration StatusCode : Z) (err : error)
    (Header : header) (Body : slice) (w : World) :
  As_InvalidResponseError err = Some (StatusCode, Header, Body) ->
  handleRequestError env a watch requestDuration err w =
  let logged := invalid_log env watch requestDuration StatusCode Body in
  if ignored StatusCode (HTTPErrorsToIgnore (config a))
     || ignored StatusCode (AdditionalHTTPErrorsToIgnore watch)
  then (None, advance w 0 [logged])
  else
    let content := invalid_html env watch requestDuration StatusCode Header Body in
    (match mailer_SendHTMLEmail env watch (invalid_subject watch) content with
     | Some err' => Some (Wrapf "error on sending email" err')
     | None => None
     end,
     advance w 0 [logged; EvSendHTMLEmail watch (invalid_subject watch) content]).
Proof.
  intros Has. unfold handleRequestError. rewrite Has.
  unfold logError, generateHTMLContentForEmail, SendHTMLEmail, invalid_log,
    invalid_html, invalid_subject, advance.
  cbn [Error]. rewrite Nat.add_0_r.
  cbv beta iota zeta delta [bind ret emit log fst snd db fetches trace].
  destruct (ignored StatusCode (HTTPErrorsToIgnore (config a))); [reflexivity|].
  destruct (ignored StatusCode (AdditionalHTTPErrorsToIgnore watch)); [reflexivity|].
  cbn [orb].
  destruct (mailer_SendHTMLEmail env watch _ _); rewrite <- app_assoc; reflexivity.
Qed.

Lemma handleRequestError_transport (requestDuration : Z) (err : error) (w : World) :
  As_InvalidResponseError err = None ->
  handleRequestError env a watch requestDuration err w =
  (match As_url_Error err with
   | Some true => None
   | _ => Some err
   end, w).
Proof.
  intros Has. unfold handleRequestError. rewrite Has.
  destruct (As_url_Error err) as [[|]|]; reflexivity.
Qed.

Lemma watchTask_failed (err : error) (w w' : World) :
  processWatch env a watch w = (Some err, w') ->
  watchTask env a watch w = (tt, advance w' 0 (task_error_events env watch err)).
Proof.
  intros H. unfold watchTask. rewrite bind_run, H. cbn [fst snd].
  unfold logError, SendErrorEmail, task_error_events, advance.
  rewrite Nat.add_0_r.
  cbv beta iota zeta delta [bind ret emit log fst snd db fetches trace].
  destruct (mailer_SendErrorEmail env watch err); rewrite <- !app_assoc; reflexivity.
Qed.

End ErrorProps.

(** C6 (ignore lists).  When the fetch ends in an invalid response, the
    store is not written; when the status code is in the global ignore list
    or in the list of the watch, [processWatch] returns without error and no
    mail is sent, by it or by the task; when it is in neither list, exactly
    one error notification is handed to the mailer. *)
Theorem invalid_response_ignore_lists (env : Env) (a : app) (watch : Watch) (w : World)
    (statusCode requestDuration StatusCode : Z) (hdr Header : header)
    (body Body : slice) (err : error) :
  fst (GetRequest env (httpClient a) (URL watch) w)
    = (statusCode, hdr, requestDuration, body, Some err) ->
  As_InvalidResponseError err = Some (StatusCode, Header, Body) ->
  exists n evs,
    snd (processWatch env a watch w) = advance w n evs /\
    db (snd (processWatch env a watch w)) = db w /\
    List.filter is_store evs = [] /\
    (In StatusCode (HTTPErrorsToIgnore (config a))
     \/ In StatusCode (AdditionalHTTPErrorsToIgnore watch) ->
     fst (processWatch env a watch w) = None /\
     List.filter is_mail evs = [] /\
     watchTask env a watch w = (tt, advance w n evs)) /\
    (~ In StatusCode (HTTPErrorsToIgnore (config a)) ->
     ~ In StatusCode (AdditionalHTTPErrorsToIgnore watch) ->
     List.filter is_mail evs =
       [EvSendHTMLEmail watch (invalid_subject watch)
          (invalid_html env watch requestDuration StatusCode Header Body)]).
Proof.
  intros Hget Has.
  destruct (processWatch_run env a watch w) as (n & evs & Hm & Hs & Hrun).
  rewrite Hget, (handleRequestError_invalid env a watch requestDuration StatusCode err
                   Header Body _ Has) in Hrun.
  cbv zeta in Hrun.
  destruct (ignored StatusCode (HTTPErrorsToIgnore (config a))
            || ignored StatusCode (AdditionalHTTPErrorsToIgnore watch)) eqn:Hign.
  - rewrite advance_advance, Nat.add_0_r in Hrun.
    eexists n, _. rewrite Hrun. cbn [fst snd].
    split; [reflexivity|]. split; [reflexivity|].
    rewrite !List.filter_app, Hm, Hs. split; [reflexivity|]. split.
    + intros _. split; [reflexivity|]. split; [reflexivity|].
      apply watchTask_done. exact Hrun.
    + intros Hg Hl. apply orb_true_iff in Hign.
      rewrite !ignored_spec in Hign. tauto.
  - rewrite advance_advance, Nat.add_0_r in Hrun.
    eexists n, _. rewrite Hrun. cbn [fst snd].
    split; [reflexivity|]. split; [reflexivity|].
    rewrite !List.filter_app, Hm, Hs. split; [reflexivity|]. split.
    + intros Hin. apply orb_false_iff in Hign. destruct Hign as [Hg Hl].
      apply not_true_iff_false in Hg, Hl. rewrite ignored_spec in Hg, Hl. tauto.
    + intros _ _. reflexivity.
Qed.

Lemma invalid_response_ignore_lists_witness :
  let env := Sample.env_of (fun _ => Sample.status 404 "Not Found") true true in
  let a := Sample.app_of 2 0 [404] false in
  let w := Sample.store [("https://a.example/", "v1")] in
  let err := InvalidResponseError 404 (Some []) (Some (list_byte_of_string "Not Found")) in
  (fst (GetRequest env (httpClient a) (URL Sample.watchA) w) = (-1, None, -1, None, Some err) /\
   In 404 (HTTPErrorsToIgnore (config a))) /\
  fst (processWatch env a Sample.watchA w) = None /\
  db (snd (processWatch env a Sample.watchA w)) = db w /\
  exists n evs,
    watchTask env a Sample.watchA w = (tt, advance w n evs) /\
    List.filter is_mail evs = [] /\ List.filter is_store evs = [].
Proof.
  intros env a w err.
  destruct (invalid_response_ignore_lists env a Sample.watchA w (-1) (-1) 404 None (Some [])
              None (Some (list_byte_of_string "Not Found")) err)
    as (n & evs & Hsnd & Hdb & Hs & Hign & _); [reflexivity | reflexivity |].
  destruct Hign as (Hfst & Hm & Htask); [left; left; reflexivity|].
  split; [split; [reflexivity | left; reflexivity]|].
  split; [exact Hfst|]. split; [exact Hdb|].
  exists n, evs. split; [exact Htask|]. split; [exact Hm | exact Hs].
Defined.



(** A transformation that succeeds has compiled every pattern, and its
    extraction pattern, when there is one, matched with a capture group. *)
Lemma spec_replace_compiles (pkg : RegexpPackage)
    (substitute : Regexp pkg -> slice -> slice -> slice) (pairs : list ReplacePattern) :
  forall body body' : slice,
  spec_replace pkg substitute pairs body = inl body' ->
  Forall (fun pair => exists re, Compile pkg (Replace_Pattern pair) = inl re) pairs.
Proof.
  induction pairs as [|replace rest IH]; intros body body' H; [constructor|].
  cbn [spec_replace] in H.
  destruct (Compile pkg (Replace_Pattern replace)) as [re | err] eqn:Hre; [|discriminate].
  constructor; [exists re; exact Hre | eapply IH; exact H].
Qed.

Lemma spec_transform_succeeds (pkg : RegexpPackage)
    (substitute : Regexp pkg -> slice -> slice -> slice) (watch : Watch)
    (body body' : slice) :
  spec_transform pkg substitute watch body = inl body' ->
  (Pattern watch = EmptyString \/
   exists re, Compile pkg (Pattern watch) = inl re /\
              (2 <= length (FindSubmatch pkg re body))%nat) /\
  Forall (fun pair => exists re, Compile pkg (Replace_Pattern pair) = inl re) (Replaces watch).
Proof.
  unfold spec_transform, spec_extract. intros H. split.
  - destruct (Pattern watch) as [|ch rest]; [left; reflexivity | right].
    destruct (Compile pkg (String ch rest)) as [re | err]; [|discriminate].
    exists re. split; [reflexivity|].
    destruct (FindSubmatch pkg re body) as [|whole [|group1 more]];
      [discriminate | discriminate | cbn [length]; lia].
  - destruct (match Pattern watch with
              | EmptyString => _
              | String _ _ => _
              end) as [body1 | err]; [|discriminate].
    eapply spec_replace_compiles. exact H.
Qed.

(** C8 (transformation), as the code has it.  After a fetch without error,
    [processWatch] computes the transformation of the spec, with each
    replacement read as a template by [ReplaceAll]: an extraction pattern
    that does not compile or that yields fewer than two submatches (the
    match and one group), and a replacement pattern that does not compile,
    make [processWatch] return the error, whatever the ignore lists hold,
    after events that are neither mails nor store writes; otherwise the
    transformed body is what is compared with the snapshot. *)
Theorem transformation_before_compare (env : Env) (a : app) (watch : Watch) (w : World)
    (statusCode requestDuration : Z) (hdr : header) (fetched : slice) :
  fst (GetRequest env (httpClient a) (URL watch) w)
    = (statusCode, hdr, requestDuration, fetched, None) ->
  exists n evs,
    List.filter is_mail evs = [] /\
    List.filter is_store evs = [] /\
    match transform_template (regexp env) watch fetched with
    | inr err =>
        processWatch env a watch w = (Some err, advance w n evs) /\
        db (snd (processWatch env a watch w)) = db w
    | inl body =>
        processWatch env a watch w =
        compareAndStore env a watch (db w !! URL watch) statusCode requestDuration body
          (advance w n evs)
    end.
Proof.
  intros Hget.
  destruct (processWatch_run env a watch w) as (n & evs & Hm & Hs & Hrun).
  destruct (processBody_run env a watch (db w !! URL watch) statusCode requestDuration fetched)
    as (logs & Hlogs & Hbody).
  destruct (logs_silent logs Hlogs) as (Hlm & Hls & _).
  exists n, (evs ++ logs).
  rewrite !List.filter_app, Hm, Hs, Hlm, Hls.
  split; [reflexivity|]. split; [reflexivity|].
  rewrite Hrun, Hget, Hbody, advance_advance, Nat.add_0_r.
  destruct (transform_template (regexp env) watch fetched); [reflexivity|].
  split; reflexivity.
Qed.

Lemma transformation_before_compare_witness :
  let matching := Sample.env_of (fun _ => Sample.ok "<p><b>v2</b></p>") true true in
  let other := Sample.env_of (fun _ => Sample.ok "<p><i>v2</i></p>") true true in
  let a := Sample.app_of 1 0 [200] false in
  let w := Sample.store [] in
  let C := Sample.watchC in
  (Result_err (fst (GetRequest matching (httpClient a) (URL C) w)) = None /\
   transform_template GoRegexp.package C (Some (list_byte_of_string "<p><b>v2</b></p>"))
     = inl (Some (list_byte_of_string "version 2")) /\
   exists n evs,
     List.filter is_mail evs = [] /\ List.filter is_store evs = [] /\
     processWatch matching a C w =
       compareAndStore matching a C None 200 12000000
         (Some (list_byte_of_string "version 2")) (advance w n evs)) /\
  (Result_err (fst (GetRequest other (httpClient a) (URL C) w)) = None /\
   exists n evs,
     List.filter is_mail evs = [] /\ List.filter is_store evs = [] /\
     processWatch other a C w =
       (Some (ErrorString "pattern <b>(v2)</b> did not match <p><i>v2</i></p>"),
        advance w n evs)).
Proof.
  intros matching other a w C. split.
  - split; [reflexivity|]. split; [reflexivity|].
    destruct (transformation_before_compare matching a C w 200 12000000
                (Some [("Content-Type", ["text/html"])])
                (Some (list_byte_of_string "<p><b>v2</b></p>")))
      as (n & evs & Hm & Hs & Hrun); [reflexivity|].
    exists n, evs. split; [exact Hm|]. split; [exact Hs | exact Hrun].
  - split; [reflexivity|].
    destruct (transformation_before_compare other a C w 200 12000000
                (Some [("Content-Type", ["text/html"])])
                (Some (list_byte_of_string "<p><i>v2</i></p>")))
      as (n & evs & Hm & Hs & Hrun); [reflexivity|].
    exists n, evs. split; [exact Hm|]. split; [exact Hs | exact (proj1 Hrun)].
Defined.

(** C8, the claim as it stands fails: the replacement is not taken
    verbatim.  With the pair ("b", "$$") and the page "abc", a verbatim
    substitution gives "a$$c"; the program stores "a$c". *)
Lemma replacement_is_a_template :
  let env := Sample.env_of (fun _ => Sample.ok "abc") true true in
  let a := Sample.app_of 1 0 [] false in
  let w := Sample.store [] in
  let D := Sample.watchD in
  transform_literal (regexp env) D (Some (list_byte_of_string "abc"))
    = inl (Some (list_byte_of_string "a$$c")) /\
  fst (processWatch env a D w) = None /\
  db (snd (processWatch env a D w)) !! URL D = Some (list_byte_of_string "a$c").
Proof. vm_compute. repeat split. Qed.

(** C10 (no retries configured).  With [retries] zero or negative,
    [GetRequest] returns at once, without a call of [fetchURL] and without
    touching the world: no error, status code 0, nil headers, duration 0 and
    a nil body.  [processWatch] then goes on with the nil body as with a
    fetched one. *)
Theorem no_retries_no_fetch (env : Env) (a : app) (watch : Watch) (w : World) :
  retries (httpClient a) <= 0 ->
  GetRequest env (httpClient a) (URL watch) w = ((0, None, 0, None, None), w) /\
  processWatch env a watch w =
    processBody env a watch (db w !! URL watch) 0 0 None
      (advance w 0 [EvLog InfoLevel ("processing " +:+ Name watch +:+ ": " +:+ URL watch)]).
Proof.
  intros Hretries. split.
  - apply GetRequest_idle. exact Hretries.
  - unfold processWatch.
    rewrite bind_run, log_run. cbn [fst snd].
    rewrite bind_run. unfold GetDatabaseEntry at 1 2. cbn [fst snd].
    rewrite bind_run, GetRequest_idle by exact Hretries. reflexivity.
Qed.

Lemma no_retries_no_fetch_witness :
  let env := Sample.env_of (fun _ => Sample.ok "v1") true true in
  let a := Sample.app_of 0 0 [] true in
  let w := Sample.store [("https://a.example/", "v1")] in
  retries (httpClient a) <= 0 /\
  GetRequest env (httpClient a) (URL Sample.watchA) w = ((0, None, 0, None, None), w) /\
  processWatch env a Sample.watchA w =
    processBody env a Sample.watchA (Some (list_byte_of_string "v1")) 0 0 None
      (advance w 0 [EvLog InfoLevel "processing A: https://a.example/"]) /\
  db (snd (processWatch env a Sample.watchA w)) !! "https://a.example/" = Some [].
Proof.
  intros env a w. split; [discriminate|].
  destruct (no_retries_no_fetch env a Sample.watchA w) as [Hget Hrun]; [discriminate|].
  split; [exact Hget|]. split; [exact Hrun | reflexivity].
Defined.

(** C5 (classification of a response).  When the exchange yields a
    response, [fetchURL] returns an error exactly when the status code is
    not 200, or the body is empty, or one of the three signatures occurs in
    the body; the error is then the [InvalidResponseError] that carries the
    status code, the headers and the body of the response, and otherwise
    the status code, the headers, the duration and the body, which is not
    empty, are returned without error. *)
Theorem fetchURL_classifies (env : Env) (c : HTTPClient) (url : string) (w : World)
    (StatusCode duration : Z) (Header : header) (body : list byte) :
  roundTrip env (fetches w) (userAgent c) url = Response StatusCode Header body duration ->
  let hard :=
    StatusCode <> 200 \/ body = [] \/
    occurs (slice_bytes signature_504) body \/
    occurs (slice_bytes signature_404) body \/
    occurs (slice_bytes signature_503) body in
  let r := fst (fetchURL env c url w) in
  (Result_err r <> None <-> hard) /\
  (hard -> r = (-1, None, duration, None,
                Some (InvalidResponseError StatusCode Header (Some body)))) /\
  (~ hard -> r = (StatusCode, Header, duration, Some body, None) /\ body <> []).
Proof.
  intros Hnet hard r.
  assert (Hcond : negb (StatusCode =? 200) || (len (Some body) =? 0) || isSoftError (Some body)
                  = true <-> hard).
  { unfold hard. rewrite !orb_true_iff, negb_true_iff, Z.eqb_neq, len_zero, isSoftError_spec.
    destruct body as [|b0 body']; [tauto|].
    assert (b0 :: body' <> []) by discriminate. tauto. }
  assert (Hr : r = attempt env c url (fetches w)).
  { unfold r. rewrite fetchURL_run. reflexivity. }
  unfold attempt in Hr. rewrite Hnet in Hr.
  destruct (negb (StatusCode =? 200) || (len (Some body) =? 0) || isSoftError (Some body)).
  - assert (Hhard : hard) by (apply Hcond; reflexivity).
    rewrite Hr. split; [|split]; [| reflexivity | contradiction].
    split; [intros _; exact Hhard | discriminate].
  - assert (Hsoft : ~ hard) by (intros H; apply Hcond in H; discriminate).
    rewrite Hr. split; [|split].
    + split; [intros H; contradiction H; reflexivity | contradiction].
    + contradiction.
    + intros _. split; [reflexivity|]. intros ->. apply Hsoft. right. left. reflexivity.
Qed.

Lemma fetchURL_classifies_witness :
  let page := list_byte_of_string "<h1>404 - Not Found</h1>" in
  let env := Sample.env_of (fun _ => Response 200 None page 5) true true in
  let c := Sample.client 3 0 in
  let w := Sample.store [] in
  roundTrip env (fetches w) (userAgent c) "https://a.example/" = Response 200 None page 5 /\
  occurs (slice_bytes signature_404) page /\
  fst (fetchURL env c "https://a.example/" w)
    = (-1, None, 5, None, Some (InvalidResponseError 200 None (Some page))).
Proof.
  intros page env c w. split; [reflexivity|].
  assert (Hocc : occurs (slice_bytes signature_404) page).
  { exists (list_byte_of_string "<h1>"), (list_byte_of_string "</h1>"). reflexivity. }
  split; [exact Hocc|].
  apply (fetchURL_classifies env c "https://a.example/" w 200 5 None page); [reflexivity|].
  right. right. right. left. exact Hocc.
Defined.

(** ** The shape of the network events *)

Lemma attempts_net_ends_with_fetch (ua url : string) (delay : Z) (k : nat) :
  exists before, attempts_net ua url delay k = before ++ [EvFetch ua url].
Proof.
  induction k as [|k [before IH]]; cbn [attempts_net].
  - exists []. reflexivity.
  - rewrite IH. eexists (_ :: _ ++ before). cbn [List.app]. rewrite <- app_assoc. reflexivity.
Qed.

Lemma attempts_net_counts (ua url : string) (delay : Z) (k : nat) :
  length (List.filter is_fetch (attempts_net ua url delay k)) = S k /\
  length (List.filter is_wait (attempts_net ua url delay k))
    = (if 0 <? delay then k else O).
Proof.
  induction k as [|k [IHf IHw]]; cbn [attempts_net].
  - split; [reflexivity | destruct (0 <? delay); reflexivity].
  - cbn [List.filter is_fetch is_wait length]. rewrite !List.filter_app, !length_app, IHf, IHw.
    destruct (0 <? delay); split; reflexivity.
Qed.




(** * Further properties of the code *)

(** ** Every path of processWatch *)

Section Paths.
Context (env : Env) (a : app) (watch : Watch).

(** After a fetch without error: no store write before the comparison, at
    most one mail and none in test mode; a transformation error is returned
    without any mail, and otherwise the run either fails without a store
    write or ends with the transformed body stored. *)
Lemma processWatch_fetched (w : World) (statusCode requestDuration : Z)
    (hdr : header) (fetched : slice) :
  fst (GetRequest env (httpClient a) (URL watch) w)
    = (statusCode, hdr, requestDuration, fetched, None) ->
  exists n evs,
    List.filter is_store evs = [] /\
    (length (List.filter is_mail evs) <= 1)%nat /\
    (testMode a = true -> List.filter is_mail evs = []) /\
    match transform_template (regexp env) watch fetched with
    | inr err =>
        processWatch env a watch w = (Some err, advance w n evs) /\
        List.filter is_mail evs = []
    | inl body =>
        (exists err, processWatch env a watch w = (Some err, advance w n evs)) \/
        processWatch env a watch w =
          (None, put (advance w n evs) (URL watch) (slice_bytes body))
    end.
Proof.
  intros Hget.
  destruct (processWatch_run env a watch w) as (n & evs & Hm & Hs & Hrun).
  destruct (processBody_run env a watch (db w !! URL watch) statusCode requestDuration fetched)
    as (logs & Hlogs & Hbody).
  destruct (logs_silent logs Hlogs) as (Hlm & Hls & _).
  rewrite Hget, Hbody, advance_advance, Nat.add_0_r in Hrun.
  assert (Hm' : List.filter is_mail (evs ++ logs) = [])
    by (rewrite List.filter_app, Hm, Hlm; reflexivity).
  assert (Hs' : List.filter is_store (evs ++ logs) = [])
    by (rewrite List.filter_app, Hs, Hls; reflexivity).
  destruct (transform_template (regexp env) watch fetched) as [body | err].
  2: { exists n, (evs ++ logs). rewrite Hm'. cbn [length].
       repeat split; try assumption; try reflexivity. lia. }
  destruct (db w !! URL watch) as [old|] eqn:Hlast.
  2: { destruct (compareAndStore_new env a watch statusCode requestDuration body
                   (advance w n (evs ++ logs))) as (more & Hmore & Hnew).
       destruct (logs_silent more Hmore) as (Hmm & Hms & _).
       rewrite Hnew, advance_advance, Nat.add_0_r in Hrun.
       exists n, ((evs ++ logs) ++ more).
       rewrite !(List.filter_app _ (evs ++ logs)), Hm', Hs', Hmm, Hms. cbn [List.app length].
       split; [reflexivity|]. split; [lia|]. split; [reflexivity|]. right. exact Hrun. }
  destruct (decide (old = slice_bytes body)) as [Hsame | Hdiff].
  { rewrite compareAndStore_same in Hrun by exact Hsame.
    exists n, (evs ++ logs). rewrite Hm'. cbn [length].
    split; [exact Hs'|]. split; [lia|]. split; [reflexivity|]. right. exact Hrun. }
  rewrite compareAndStore_changed in Hrun by exact Hdiff.
  destruct (testMode a).
  { rewrite advance_advance, Nat.add_0_r in Hrun.
    exists n, ((evs ++ logs) ++ [would_send_log watch]).
    rewrite !(List.filter_app _ (evs ++ logs)), Hm', Hs'. cbn [List.app List.filter is_mail
      is_store would_send_log length].
    split; [reflexivity|]. split; [lia|]. split; [reflexivity|]. right. exact Hrun. }
  cbv zeta in Hrun.
  destruct (diff_DiffAPI env (string_of_list_byte old) (string_of_bytes body))
    as [[css html] | err].
  - cbn [List.app] in Hrun.
    exists n, ((evs ++ logs) ++
               [EvLog InfoLevel (change_subject watch);
                EvDiffAPI (string_of_list_byte old) (string_of_bytes body);
                EvSendHTMLEmail watch (change_subject watch)
                  (change_html css html
                     (change_text env watch statusCode requestDuration body))]).
    rewrite !(List.filter_app _ (evs ++ logs)), Hm', Hs'.
    cbn [List.app List.filter is_mail is_store length].
    split; [reflexivity|]. split; [lia|]. split; [discriminate|].
    destruct (mailer_SendHTMLEmail env watch (change_subject watch)
                (change_html css html (change_text env watch statusCode requestDuration body)))
      as [err|].
    + left. exists (Wrapf "error on sending email" err).
      rewrite Hrun, advance_advance, Nat.add_0_r. reflexivity.
    + right. rewrite Hrun, advance_advance, Nat.add_0_r. reflexivity.
  - exists n, ((evs ++ logs) ++
               [EvLog InfoLevel (change_subject watch);
                EvDiffAPI (string_of_list_byte old) (string_of_bytes body)]).
    rewrite !(List.filter_app _ (evs ++ logs)), Hm', Hs'.
    cbn [List.app List.filter is_mail is_store length].
    split; [reflexivity|]. split; [lia|]. split; [discriminate|].
    left. exists (Wrapf "error on creating htmlcontent" err).
    rewrite Hrun, advance_advance, Nat.add_0_r. reflexivity.
Qed.

(** After a fetch that failed: the store is never written and at most one
    mail is handed to the mailer. *)
Lemma processWatch_not_fetched (w : World) (statusCode requestDuration : Z)
    (hdr : header) (body : slice) (err : error) :
  fst (GetRequest env (httpClient a) (URL watch) w)
    = (statusCode, hdr, requestDuration, body, Some err) ->
  exists n evs res,
    List.filter is_store evs = [] /\
    (length (List.filter is_mail evs) <= 1)%nat /\
    processWatch env a watch w = (res, advance w n evs).
Proof.
  intros Hget.
  destruct (processWatch_run env a watch w) as (n & evs & Hm & Hs & Hrun).
  rewrite Hget in Hrun.
  destruct (As_InvalidResponseError err) as [[[StatusCode Header] Body]|] eqn:Has.
  - rewrite (handleRequestError_invalid env a watch requestDuration StatusCode err
               Header Body _ Has) in Hrun.
    cbv zeta in Hrun.
    destruct (ignored StatusCode (HTTPErrorsToIgnore (config a))
              || ignored StatusCode (AdditionalHTTPErrorsToIgnore watch)).
    + rewrite advance_advance, Nat.add_0_r in Hrun.
      eexists n, (evs ++ _), _. split; [|split; [|exact Hrun]].
      * rewrite List.filter_app, Hs. reflexivity.
      * rewrite List.filter_app, Hm. cbn. lia.
    + rewrite advance_advance, Nat.add_0_r in Hrun.
      eexists n, (evs ++ _), _. split; [|split; [|exact Hrun]].
      * rewrite List.filter_app, Hs. reflexivity.
      * rewrite List.filter_app, Hm. cbn. lia.
  - rewrite handleRequestError_transport in Hrun by exact Has.
    eexists n, evs, _. rewrite Hm. cbn [length].
    split; [exact Hs|]. split; [lia | exact Hrun].
Qed.

(** The two together: whatever happens, the new events hold at most one
    mail and the store is either untouched or written once, under the URL
    of the watch, by a run that returns no error. *)
Lemma processWatch_effects (w : World) :
  exists n evs,
    List.filter is_store evs = [] /\
    (length (List.filter is_mail evs) <= 1)%nat /\
    ((exists res, processWatch env a watch w = (res, advance w n evs)) \/
     (exists content,
        processWatch env a watch w = (None, put (advance w n evs) (URL watch) content))).
Proof.
  destruct (fst (GetRequest env (httpClient a) (URL watch) w))
    as [[[[statusCode hdr] requestDuration] body] [err|]] eqn:Hget.
  - destruct (processWatch_not_fetched w statusCode requestDuration hdr body err Hget)
      as (n & evs & res & Hs & Hm & Hrun).
    exists n, evs. split; [exact Hs|]. split; [exact Hm|]. left.
    exists res. exact Hrun.
  - destruct (processWatch_fetched w statusCode requestDuration hdr body Hget)
      as (n & evs & Hs & Hm & _ & Hrun).
    exists n, evs. split; [exact Hs|]. split; [exact Hm|].
    destruct (transform_template (regexp env) watch body) as [body' | err].
    + destruct Hrun as [[err Hrun] | Hrun].
      * left. exists (Some err). exact Hrun.
      * right. exists (slice_bytes body'). exact Hrun.
    + left. exists (Some err). exact (proj1 Hrun).
Qed.

End Paths.

(** ** Results of the fetcher *)

Lemma attempt_success (env : Env) (c : HTTPClient) (url : string) (n : nat) :
  Result_err (attempt env c url n) = None ->
  exists hdr duration body,
    attempt env c url n = (200, hdr, duration, Some body, None) /\
    body <> [] /\ isSoftError (Some body) = false.
Proof.
  unfold attempt.
  destruct (roundTrip env n (userAgent c) url) as [e | e | e | StatusCode Header body duration];
    try discriminate.
  destruct (negb (StatusCode =? 200) || (len (Some body) =? 0) || isSoftError (Some body))
    eqn:Hcond; [discriminate|].
  intros _. apply orb_false_iff in Hcond. destruct Hcond as [Hcond Hsoft].
  apply orb_false_iff in Hcond. destruct Hcond as [Hstatus Hlen].
  apply negb_false_iff, Z.eqb_eq in Hstatus. subst StatusCode.
  exists Header, duration, body. split; [reflexivity|]. split; [|exact Hsoft].
  intros ->. discriminate.
Qed.

Section ResultProps.
Context (env : Env) (c : HTTPClient) (url : string).

(** What the loop can leave in the variables: the values it started with,
    when no iteration ran, or the results of one call of [fetchURL]. *)
Lemma GetRequest_loop_result (fuel : nat) :
  forall (i : Z) (vars : Result) (w : World),
  match fst (GetRequest_loop env fuel c url i vars w) with
  | inl r => r = (-1, None, -1, None, Some (ctx_Err env))
  | inr v =>
      ((fuel = O \/ retries c < i) /\ v = vars) \/ exists n, v = attempt env c url n
  end.
Proof.
  induction fuel as [|fuel IH]; intros i vars w.
  - left. split; [left|]; reflexivity.
  - destruct (Z_lt_le_dec (retries c) i) as [Hi | Hi].
    + rewrite GetRequest_loop_exit by exact Hi. left. split; [right; exact Hi | reflexivity].
    + rewrite GetRequest_loop_step by exact Hi. cbv zeta.
      destruct (Result_err (attempt env c url (fetches w))) as [err|];
        [|right; eexists; reflexivity].
      destruct (i =? retries c); [right; eexists; reflexivity|].
      destruct (0 <? retryDelay c).
      * destruct (ctx_Done env (S (fetches w))); [reflexivity|].
        specialize (IH (i + 1) (attempt env c url (fetches w))
                      (advance w 1 [try_log url i; EvFetch (userAgent c) url;
                                    retry_log env c url i err; EvWaited (retryDelay c)])).
        destruct (fst (GetRequest_loop env fuel c url (i + 1) _ _)); [exact IH|].
        destruct IH as [[_ ->] | Hn]; [right; eexists; reflexivity | right; exact Hn].
      * specialize (IH (i + 1) (attempt env c url (fetches w))
                      (advance w 1 [try_log url i; EvFetch (userAgent c) url;
                                    retry_log env c url i err])).
        destruct (fst (GetRequest_loop env fuel c url (i + 1) _ _)); [exact IH|].
        destruct IH as [[_ ->] | Hn]; [right; eexists; reflexivity | right; exact Hn].
Qed.

(** With at least one retry configured the loop calls [fetchURL]. *)
Lemma GetRequest_fetches_once (w : World) :
  1 <= retries c ->
  exists n evs, snd (GetRequest env c url w) = advance w (S n) evs.
Proof.
  intros Hretries. rewrite GetRequest_run. cbn [snd].
  destruct (Z.to_nat (retries c)) as [|fuel] eqn:Hfuel; [lia|].
  rewrite GetRequest_loop_step by exact Hretries. cbv zeta.
  destruct (Result_err (attempt env c url (fetches w))) as [err|];
    [|exists O; eexists; reflexivity].
  destruct (1 =? retries c); [exists O; eexists; reflexivity|].
  destruct (0 <? retryDelay c).
  - destruct (ctx_Done env (S (fetches w))); [exists O; eexists; reflexivity|].
    destruct (GetRequest_loop_shape env c url fuel (1 + 1) (attempt env c url (fetches w))
                (fetches w + 1)%nat) as (out & n & evs & Hrun & _).
    rewrite Hrun by reflexivity. cbn [snd]. rewrite advance_advance.
    exists n. eexists. reflexivity.
  - destruct (GetRequest_loop_shape env c url fuel (1 + 1) (attempt env c url (fetches w))
                (fetches w + 1)%nat) as (out & n & evs & Hrun & _).
    rewrite Hrun by reflexivity. cbn [snd]. rewrite advance_advance.
    exists n. eexists. reflexivity.
Qed.

End ResultProps.

(** X1.  [isSoftError] is false for a nil or empty body; for any other
    body it is true exactly when one of the three signatures occurs in
    it. *)
Theorem isSoftError_characterised (body : slice) :
  isSoftError body = true <->
  slice_bytes body <> [] /\
  (occurs (slice_bytes signature_504) (slice_bytes body) \/
   occurs (slice_bytes signature_404) (slice_bytes body) \/
   occurs (slice_bytes signature_503) (slice_bytes body)).
Proof.
  destruct body as [l|].
  - apply isSoftError_spec.
  - cbn. split; [discriminate | intros [H _]; contradiction].
Qed.



(** X3.  What [GetRequest] returns: with an error, the other four values
    are -1, nil, -1 and nil; without an error and with [retries] at least
    1, the status code is 200 and the body is a non-nil, non-empty slice in
    which none of the three signatures occurs. *)
Theorem GetRequest_results (env : Env) (c : HTTPClient) (url : string) (w : World) :
  let r := fst (GetRequest env c url w) in
  (forall err, Result_err r = Some err -> r = (-1, None, -1, None, Some err)) /\
  (1 <= retries c ->
   Result_err r = None ->
   exists hdr duration body,
     r = (200, hdr, duration, Some body, None) /\
     body <> [] /\
     ~ occurs (slice_bytes signature_504) body /\
     ~ occurs (slice_bytes signature_404) body /\
     ~ occurs (slice_bytes signature_503) body).
Proof.
  intros r. subst r. rewrite GetRequest_run. cbn [fst].
  pose proof (GetRequest_loop_result env c url (Z.to_nat (retries c)) 1
                (0, None, 0, None, None) w) as Hloop.
  destruct (fst (GetRequest_loop env (Z.to_nat (retries c)) c url 1 (0, None, 0, None, None) w))
    as [r | vars].
  - subst r. split.
    + intros err Herr. injection Herr as <-. reflexivity.
    + intros _ Hnone. discriminate.
  - split.
    + intros err Herr. unfold surface in *.
      destruct (Result_err vars) as [e|] eqn:He; [exact (f_equal _ Herr) |].
      rewrite He in Herr. discriminate.
    + intros Hretries Hnone.
      destruct Hloop as [[Hnot _] | [n ->]]; [lia|].
      unfold surface in *.
      destruct (Result_err (attempt env c url n)) as [e|] eqn:He; [discriminate|].
      destruct (attempt_success env c url n He) as (hdr & duration & body & Hr & Hne & Hsoft).
      exists hdr, duration, body. split; [exact Hr|]. split; [exact Hne|].
      apply not_true_iff_false in Hsoft. rewrite isSoftError_spec in Hsoft. tauto.
Qed.

(** X4.  [GetRequest] touches neither the store nor the mailer, whatever
    the environment answers, and with [retries] at least 1 it calls
    [fetchURL] at least once. *)
Theorem GetRequest_footprint (env : Env) (c : HTTPClient) (url : string) (w : World) :
  exists n evs,
    snd (GetRequest env c url w) = advance w n evs /\
    db (snd (GetRequest env c url w)) = db w /\
    List.filter is_mail evs = [] /\
    List.filter is_store evs = [] /\
    (1 <= retries c -> (1 <= n)%nat).
Proof.
  destruct (GetRequest_shape env c url (fetches w))
    as (r & n & evs & Hrun & _ & _ & Hm & Hs & _).
  exists n, evs. rewrite Hrun by reflexivity. cbn [snd].
  split; [reflexivity|]. split; [reflexivity|]. split; [exact Hm|]. split; [exact Hs|].
  intros Hretries.
  destruct (GetRequest_fetches_once env c url w Hretries) as (n' & evs' & Hsnd).
  rewrite Hrun in Hsnd by reflexivity. cbn [snd] in Hsnd.
  apply (f_equal fetches) in Hsnd. cbn [advance fetches] in Hsnd. lia.
Qed.

(** ** What one run of processWatch does and does not do *)

(** X5.  A run leaves every store entry other than the one of the watch's
    URL as it was. *)
Theorem processWatch_other_entries_untouched (env : Env) (a : app) (watch : Watch)
    (w : World) (url : string) :
  url <> URL watch ->
  db (snd (processWatch env a watch w)) !! url = db w !! url.
Proof.
  intros Hother.
  destruct (processWatch_effects env a watch w)
    as (n & evs & _ & _ & [[res Hrun] | [content Hrun]]); rewrite Hrun; cbn [snd].
  - reflexivity.
  - cbn [put advance db]. apply lookup_insert_ne. congruence.
Qed.

Lemma processWatch_other_entries_untouched_witness :
  let env := Sample.env_of (fun _ => Sample.ok "v2") true true in
  let a := Sample.app_of 3 0 [] false in
  let w := Sample.store [("https://a.example/", "v1"); ("https://c.example/", "old")] in
  "https://c.example/" <> URL Sample.watchA /\
  db (snd (processWatch env a Sample.watchA w)) !! "https://c.example/"
    = Some (list_byte_of_string "old").
Proof.
  intros env a w. split; [discriminate|].
  rewrite (processWatch_other_entries_untouched env a Sample.watchA w "https://c.example/");
    [reflexivity | discriminate].
Defined.

(** X6.  In one run the store is written at most once, and if so under the
    URL of the watch, and at most one mail is handed to the mailer. *)
Theorem processWatch_at_most_once (env : Env) (a : app) (watch : Watch) (w : World) :
  exists evs,
    trace (snd (processWatch env a watch w)) = trace w ++ evs /\
    (length (List.filter is_mail evs) <= 1)%nat /\
    (List.filter is_store evs = [] \/
     exists content, List.filter is_store evs = [EvSetDatabaseEntry (URL watch) content]).
Proof.
  destruct (processWatch_effects env a watch w)
    as (n & evs & Hs & Hm & [[res Hrun] | [content Hrun]]); rewrite Hrun; cbn [snd].
  - exists evs. split; [reflexivity|]. split; [exact Hm|]. left. exact Hs.
  - exists (evs ++ [EvSetDatabaseEntry (URL watch) content]).
    rewrite put_advance. cbn [trace].
    split; [reflexivity|].
    rewrite !List.filter_app, Hs, length_app. cbn [List.filter is_mail is_store length List.app].
    split; [lia|]. right. exists content. reflexivity.
Qed.

(** X7.  A run that returns an error has not written the store. *)
Theorem processWatch_error_keeps_store (env : Env) (a : app) (watch : Watch) (w : World)
    (err : error) :
  fst (processWatch env a watch w) = Some err ->
  db (snd (processWatch env a watch w)) = db w /\
  exists evs,
    trace (snd (processWatch env a watch w)) = trace w ++ evs /\
    List.filter is_store evs = [].
Proof.
  destruct (processWatch_effects env a watch w)
    as (n & evs & Hs & _ & [[res Hrun] | [content Hrun]]); rewrite Hrun; cbn [fst snd].
  - intros _. split; [reflexivity|]. exists evs. split; [reflexivity | exact Hs].
  - discriminate.
Qed.

Lemma processWatch_error_keeps_store_witness :
  let env := Sample.env_of (fun _ => Sample.ok "<p><i>v2</i></p>") true true in
  let a := Sample.app_of 1 0 [] false in
  let w := Sample.store [("https://c.example/", "version 1")] in
  let err := ErrorString "pattern <b>(v2)</b> did not match <p><i>v2</i></p>" in
  fst (processWatch env a Sample.watchC w) = Some err /\
  db (snd (processWatch env a Sample.watchC w)) = db w /\
  exists evs,
    trace (snd (processWatch env a Sample.watchC w)) = trace w ++ evs /\
    List.filter is_store evs = [].
Proof.
  intros env a w err. split; [reflexivity|].
  apply (processWatch_error_keeps_store env a Sample.watchC w err). reflexivity.
Defined.

(** X8.  A run that fetched without error and returns no error has stored
    the transformed body under the URL of the watch, whatever the store held
    before. *)
Theorem processWatch_success_stores_content (env : Env) (a : app) (watch : Watch)
    (w : World) (statusCode requestDuration : Z) (hdr : header) (fetched body : slice) :
  fst (GetRequest env (httpClient a) (URL watch) w)
    = (statusCode, hdr, requestDuration, fetched, None) ->
  transform_template (regexp env) watch fetched = inl body ->
  fst (processWatch env a watch w) = None ->
  db (snd (processWatch env a watch w)) !! URL watch = Some (slice_bytes body) /\
  exists evs,
    trace (snd (processWatch env a watch w)) = trace w ++ evs /\
    List.filter is_store evs = [EvSetDatabaseEntry (URL watch) (slice_bytes body)].
Proof.
  intros Hget Htransform.
  destruct (processWatch_fetched env a watch w statusCode requestDuration hdr fetched Hget)
    as (n & evs & Hs & _ & _ & Hrun).
  rewrite Htransform in Hrun.
  destruct Hrun as [[err Hrun] | Hrun]; rewrite Hrun; cbn [fst snd]; [discriminate|].
  intros _. split.
  - cbn [put advance db]. apply lookup_insert_eq.
  - exists (evs ++ [EvSetDatabaseEntry (URL watch) (slice_bytes body)]).
    rewrite put_advance. cbn [trace]. split; [reflexivity|].
    rewrite List.filter_app, Hs. reflexivity.
Qed.

Lemma processWatch_success_stores_content_witness :
  let env := Sample.env_of (fun _ => Sample.ok "<p><b>v2</b></p>") true true in
  let a := Sample.app_of 1 0 [] false in
  let w := Sample.store [("https://c.example/", "version 1")] in
  let v2 := list_byte_of_string "version 2" in
  fst (processWatch env a Sample.watchC w) = None /\
  db (snd (processWatch env a Sample.watchC w)) !! URL Sample.watchC = Some v2 /\
  exists evs,
    trace (snd (processWatch env a Sample.watchC w)) = trace w ++ evs /\
    List.filter is_store evs = [EvSetDatabaseEntry (URL Sample.watchC) v2].
Proof.
  intros env a w v2. split; [reflexivity|].
  apply (processWatch_success_stores_content env a Sample.watchC w 200 12000000
           (Some [("Content-Type", ["text/html"])])
           (Some (list_byte_of_string "<p><b>v2</b></p>")) (Some v2)); reflexivity.
Defined.

(** X9.  In test mode a run whose fetch returned no error hands no mail to
    the mailer, whatever was fetched and whatever the store holds. *)
Theorem test_mode_sends_no_mail_after_fetch (env : Env) (a : app) (watch : Watch)
    (w : World) :
  testMode a = true ->
  Result_err (fst (GetRequest env (httpClient a) (URL watch) w)) = None ->
  exists evs,
    trace (snd (processWatch env a watch w)) = trace w ++ evs /\
    List.filter is_mail evs = [].
Proof.
  intros Htest Hok.
  destruct (fst (GetRequest env (httpClient a) (URL watch) w))
    as [[[[statusCode hdr] requestDuration] fetched] err] eqn:Hget.
  cbn in Hok. subst err.
  destruct (processWatch_fetched env a watch w statusCode requestDuration hdr fetched Hget)
    as (n & evs & _ & _ & Hm & Hrun).
  specialize (Hm Htest).
  destruct (transform_template (regexp env) watch fetched) as [body | err].
  - destruct Hrun as [[err Hrun] | Hrun]; rewrite Hrun; cbn [snd].
    + exists evs. split; [reflexivity | exact Hm].
    + exists (evs ++ [EvSetDatabaseEntry (URL watch) (slice_bytes body)]).
      rewrite put_advance. cbn [trace]. split; [reflexivity|].
      rewrite List.filter_app, Hm. reflexivity.
  - destruct Hrun as [Hrun _]. rewrite Hrun. cbn [snd].
    exists evs. split; [reflexivity | exact Hm].
Qed.

Lemma test_mode_sends_no_mail_after_fetch_witness :
  let env := Sample.env_of (fun _ => Sample.ok "v2") true true in
  let a := Sample.app_of 3 0 [] true in
  let w := Sample.store [("https://a.example/", "v1")] in
  (testMode a = true /\
   Result_err (fst (GetRequest env (httpClient a) (URL Sample.watchA) w)) = None) /\
  exists evs,
    trace (snd (processWatch env a Sample.watchA w)) = trace w ++ evs /\
    List.filter is_mail evs = [].
Proof.
  intros env a w. split; [split; reflexivity|].
  apply (test_mode_sends_no_mail_after_fetch env a Sample.watchA w); reflexivity.
Defined.

(** X10.  After a run that fetched without error and returned no error, a
    second run that fetches the same content sends no mail, writes the same
    bytes again and leaves the store as the first run left it, whether the
    first run found a new, a changed or an unchanged resource. *)
Theorem second_run_is_unchanged (env : Env) (a : app) (watch : Watch) (w : World)
    (statusCode1 requestDuration1 statusCode2 requestDuration2 : Z)
    (hdr1 hdr2 : header) (fetched body : slice) :
  fst (GetRequest env (httpClient a) (URL watch) w)
    = (statusCode1, hdr1, requestDuration1, fetched, None) ->
  transform_template (regexp env) watch fetched = inl body ->
  fst (processWatch env a watch w) = None ->
  fst (GetRequest env (httpClient a) (URL watch) (snd (processWatch env a watch w)))
    = (statusCode2, hdr2, requestDuration2, fetched, None) ->
  exists n evs,
    let w1 := snd (processWatch env a watch w) in
    let w2 := put (advance w1 n evs) (URL watch) (slice_bytes body) in
    processWatch env a watch w1 = (None, w2) /\
    List.filter is_mail evs = [] /\
    List.filter is_store evs = [] /\
    db w2 = db w1.
Proof.
  intros Hget1 Htransform Hok Hget2.
  destruct (processWatch_fetched env a watch w statusCode1 requestDuration1 hdr1 fetched Hget1)
    as (n1 & evs1 & _ & _ & _ & Hrun1).
  rewrite Htransform in Hrun1.
  destruct Hrun1 as [[err Hrun1] | Hrun1]; rewrite Hrun1 in Hok, Hget2 |- *;
    cbn [fst snd] in Hok, Hget2 |- *; [discriminate|].
  assert (Hlast : db (put (advance w n1 evs1) (URL watch) (slice_bytes body)) !! URL watch
                  = Some (slice_bytes body)) by apply lookup_insert_eq.
  destruct (processWatch_unchanged env a watch _ statusCode2 requestDuration2 hdr2 fetched body
              Hlast Hget2 Htransform) as (n & evs & Hm & Hs & Hrun & Hdb).
  exists n, evs. cbv zeta. repeat split; assumption.
Qed.

Lemma second_run_is_unchanged_witness :
  let env := Sample.env_of (fun _ => Sample.ok "v2") true true in
  let a := Sample.app_of 3 0 [] false in
  let w := Sample.store [("https://a.example/", "v1")] in
  let v2 := list_byte_of_string "v2" in
  (fst (processWatch env a Sample.watchA w) = None /\
   db w !! URL Sample.watchA = Some (list_byte_of_string "v1")) /\
  exists n evs,
    let w1 := snd (processWatch env a Sample.watchA w) in
    let w2 := put (advance w1 n evs) (URL Sample.watchA) v2 in
    processWatch env a Sample.watchA w1 = (None, w2) /\
    List.filter is_mail evs = [] /\
    List.filter is_store evs = [] /\
    db w2 = db w1.
Proof.
  intros env a w v2. split; [split; reflexivity|].
  apply (second_run_is_unchanged env a Sample.watchA w 200 12000000 200 12000000
           (Some [("Content-Type", ["text/html"])]) (Some [("Content-Type", ["text/html"])])
           (Some v2) (Some v2)); reflexivity.
Defined.

(** X11.  The task of the scheduler adds to a run of [processWatch]
    exactly this: when the run returned an error, one error mail for the
    watch, and nothing when it returned none; it never writes the store, and
    a mailer that fails is logged, not reported further. *)
Theorem watchTask_reports_errors (env : Env) (a : app) (watch : Watch) (w : World) :
  exists tail,
    watchTask env a watch w = (tt, advance (snd (processWatch env a watch w)) 0 tail) /\
    List.filter is_store tail = [] /\
    List.filter is_net tail = [] /\
    List.filter is_mail tail =
      match fst (processWatch env a watch w) with
      | Some err => [EvSendErrorEmail watch err]
      | None => []
      end.
Proof.
  destruct (processWatch env a watch w) as [[err|] w'] eqn:Hrun; cbn [fst snd].
  - exists (task_error_events env watch err).
    split; [apply watchTask_failed; exact Hrun|].
    unfold task_error_events.
    destruct (mailer_SendErrorEmail env watch err); repeat split; reflexivity.
  - exists []. rewrite advance_0_nil.
    split; [apply watchTask_done; exact Hrun|]. repeat split; reflexivity.
Qed.

(** [processWatch] unfolded up to the return of [GetRequest], for a
    fetcher that is known to return [r] after [n] calls. *)
Lemma processWatch_unfold (env : Env) (a : app) (watch : Watch) (w : World)
    (r : Result) (n : nat) (evs : list Event) :
  (forall w', fetches w' = fetches w ->
     GetRequest env (httpClient a) (URL watch) w' = (r, advance w' n evs)) ->
  processWatch env a watch w =
  (let '(statusCode, _, requestDuration, body, err) := r in
   match err with
   | Some err => handleRequestError env a watch requestDuration err
   | None => processBody env a watch (db w !! URL watch) statusCode requestDuration body
   end)
    (advance w n
       (EvLog InfoLevel ("processing " +:+ Name watch +:+ ": " +:+ URL watch) :: evs)).
Proof.
  intros Hrun. unfold processWatch.
  rewrite bind_run, log_run. cbn [fst snd].
  rewrite bind_run. unfold GetDatabaseEntry at 1 2. cbn [fst snd].
  rewrite bind_run.
  rewrite (Hrun (advance w 0 _)) by (rewrite fetches_advance; lia).
  cbn [fst snd]. rewrite advance_advance. cbn [Nat.add List.app advance db].
  destruct r as [[[[statusCode hdr] requestDuration] body] err]. reflexivity.
Qed.

Lemma handleRequestError_config (env : Env) (a a' : app) (watch : Watch)
    (requestDuration : Z) (err : error) :
  config a = config a' ->
  handleRequestError env a watch requestDuration err
  = handleRequestError env a' watch requestDuration err.
Proof. intros Hconfig. unfold handleRequestError. rewrite Hconfig. reflexivity. Qed.

(** X12.  The test mode plays no part when the fetch fails: two
    applications that differ in [testMode] only process a watch whose fetch
    returns an error in the same way, mails included. *)
Theorem failed_fetch_ignores_test_mode (env : Env) (a a' : app) (watch : Watch) (w : World) :
  config a = config a' ->
  httpClient a = httpClient a' ->
  Result_err (fst (GetRequest env (httpClient a) (URL watch) w)) <> None ->
  processWatch env a watch w = processWatch env a' watch w.
Proof.
  intros Hconfig Hclient Hfailed.
  destruct (GetRequest_shape env (httpClient a) (URL watch) (fetches w))
    as (r & n & evs & Hshape & _).
  rewrite (Hshape w) in Hfailed by reflexivity. cbn [fst] in Hfailed.
  rewrite (processWatch_unfold env a watch w r n evs Hshape).
  rewrite Hclient in Hshape.
  rewrite (processWatch_unfold env a' watch w r n evs Hshape).
  destruct r as [[[[statusCode hdr] requestDuration] body] [err|]].
  - rewrite (handleRequestError_config env a a' watch requestDuration err Hconfig).
    reflexivity.
  - contradiction Hfailed. reflexivity.
Qed.

Lemma failed_fetch_ignores_test_mode_witness :
  let env := Sample.env_of (fun _ => Sample.status 500 "Internal Server Error") true true in
  let prod := Sample.app_of 1 0 [404] false in
  let test := Sample.app_of 1 0 [404] true in
  let w := Sample.store [("https://a.example/", "v1")] in
  Result_err (fst (GetRequest env (httpClient test) (URL Sample.watchA) w)) <> None /\
  processWatch env test Sample.watchA w = processWatch env prod Sample.watchA w /\
  length (List.filter is_mail (trace (snd (processWatch env test Sample.watchA w)))) = 1%nat.
Proof.
  intros env prod test w. split; [discriminate|]. split.
  - apply (failed_fetch_ignores_test_mode env test prod Sample.watchA w);
      [reflexivity | reflexivity | discriminate].
  - reflexivity.
Defined.

(** X13.  A watch whose attempts all fail and whose last attempt fails in
    [c.Do] with a [*url.Error] that reports a timeout is passed over in
    silence: [processWatch] returns no error after exactly [retries] calls
    of [fetchURL], no mail is sent by it or by the task, and the store is
    not written. *)
Theorem exhausted_by_timeout_is_silent (env : Env) (a : app) (watch : Watch) (w : World)
    (m : nat) (msg : string) :
  Z.of_nat (S m) = retries (httpClient a) ->
  fail_before env (httpClient a) (URL watch) w m ->
  waits_complete env (httpClient a) w m ->
  roundTrip env (fetches w + m) (userAgent (httpClient a)) (URL watch)
    = DoError (UrlError msg true) ->
  exists evs,
    processWatch env a watch w = (None, advance w (S m) evs) /\
    watchTask env a watch w = (tt, advance w (S m) evs) /\
    List.filter is_mail evs = [] /\
    List.filter is_store evs = [] /\
    length (List.filter is_fetch evs) = S m.
Proof.
  intros Hretries Hfail Hwait Hlast.
  destruct (GetRequest_stops env (httpClient a) (URL watch) w m)
    as [evs [Hrun Hnet]]; [lia | exact Hfail | exact Hwait | right; exact Hretries |].
  assert (Hattempt : attempt env (httpClient a) (URL watch) (fetches w + m)
                     = (-1, None, -1, None,
                        Some (Wrapf ("could not get " +:+ URL watch) (UrlError msg true)))).
  { unfold attempt. rewrite Hlast. reflexivity. }
  rewrite Hattempt in Hrun. cbn [surface Result_err snd] in Hrun.
  destruct (GetRequest_shape env (httpClient a) (URL watch) (fetches w))
    as (r & n & evs' & Hshape & _ & Hf & Hm & Hs & _).
  pose proof (Hshape w eq_refl) as Hw. rewrite Hrun in Hw.
  pose proof (f_equal fst Hw) as Hr. pose proof (f_equal snd Hw) as Hworld.
  cbn [fst snd] in Hr, Hworld. subst r. clear Hw.
  assert (Hn : S m = n).
  { apply (f_equal fetches) in Hworld. cbn [advance fetches] in Hworld. lia. }
  assert (Hevs : evs = evs').
  { apply (f_equal trace) in Hworld. cbn [advance trace] in Hworld.
    apply app_inv_head in Hworld. exact Hworld. }
  subst evs'. rewrite <- Hn in Hshape, Hf. clear Hn Hworld.
  rewrite (processWatch_unfold env a watch w _ (S m) evs Hshape).
  rewrite handleRequestError_transport by reflexivity. cbn [As_url_Error].
  eexists. split; [reflexivity|].
  split.
  - apply watchTask_done.
    rewrite (processWatch_unfold env a watch w _ (S m) evs Hshape).
    rewrite handleRequestError_transport by reflexivity. reflexivity.
  - cbn [List.filter is_mail is_store is_fetch]. repeat split; assumption.
Qed.

Lemma exhausted_by_timeout_is_silent_witness :
  let timeout := UrlError "Get https://a.example/: context deadline exceeded" true in
  let env := Sample.env_of (fun n => if Nat.eqb n 1 then DoError timeout else Sample.refused)
               true true in
  let a := Sample.app_of 2 0 [] false in
  let w := Sample.store [("https://a.example/", "v1")] in
  roundTrip env 1 (userAgent (httpClient a)) (URL Sample.watchA) = DoError timeout /\
  exists evs,
    processWatch env a Sample.watchA w = (None, advance w 2 evs) /\
    watchTask env a Sample.watchA w = (tt, advance w 2 evs) /\
    List.filter is_mail evs = [] /\
    List.filter is_store evs = [] /\
    length (List.filter is_fetch evs) = 2%nat.
Proof.
  intros timeout env a w. split; [reflexivity|].
  apply (exhausted_by_timeout_is_silent env a Sample.watchA w 1
           "Get https://a.example/: context deadline exceeded").
  - reflexivity.
  - intros j Hj. assert (j = O) as -> by lia. discriminate.
  - intros Hdelay. discriminate Hdelay.
  - reflexivity.
Defined.

(** ** Every call of GetRequest *)

(** Among the first [bound] + 1 calls counted from [w] there is a first
    one at which the loop stops: it succeeds, or its wait is cancelled, or
    it is the call number [bound]. *)
Lemma first_stop (env : Env) (c : HTTPClient) (url : string) (w : World) (bound : nat) :
  exists m,
    (m <= bound)%nat /\
    fail_before env c url w m /\
    waits_complete env c w m /\
    (m = bound \/
     Result_err (attempt env c url (fetches w + m)) = None \/
     (0 < retryDelay c /\
      Result_err (attempt env c url (fetches w + m)) <> None /\
      ctx_Done env (fetches w + m + 1) = true)).
Proof.
  induction bound as [|bound (m & Hm & Hfail & Hwait & Hstop)].
  - exists O. split; [lia|]. split; [intros j Hj; lia|].
    split; [intros _ j Hj; lia | left; reflexivity].
  - destruct (decide (m = bound)) as [-> | Hne].
    2: { exists m. split; [lia|]. split; [exact Hfail|]. split; [exact Hwait|].
         destruct Hstop as [Heq | Hstop]; [contradiction | right; exact Hstop]. }
    clear Hstop.
    destruct (Result_err (attempt env c url (fetches w + bound))) as [err|] eqn:Herr.
    2: { exists bound. split; [lia|]. split; [exact Hfail|]. split; [exact Hwait|].
         right. left. exact Herr. }
    destruct (Z_lt_le_dec 0 (retryDelay c)) as [Hd | Hd].
    + destruct (ctx_Done env (fetches w + bound + 1)) eqn:Hc.
      * exists bound. split; [lia|]. split; [exact Hfail|]. split; [exact Hwait|].
        right. right. rewrite Herr. split; [exact Hd|]. split; [discriminate | exact Hc].
      * exists (S bound). split; [lia|]. split; [|split; [|left; reflexivity]].
        -- intros j Hj. destruct (decide (j = bound)) as [-> | Hj'].
           ++ rewrite Herr. discriminate.
           ++ apply Hfail. lia.
        -- intros _ j Hj. destruct (decide (j = bound)) as [-> | Hj'].
           ++ exact Hc.
           ++ apply Hwait; [exact Hd | lia].
    + exists (S bound). split; [lia|]. split; [|split; [|left; reflexivity]].
      * intros j Hj. destruct (decide (j = bound)) as [-> | Hj'].
        -- rewrite Herr. discriminate.
        -- apply Hfail. lia.
      * intros Hpos. lia.
Qed.

(** X14.  With [retries] at least 1 every call of [GetRequest] ends in one
    of three ways, after some number of calls of [fetchURL] between 1 and
    [retries] with a wait between two of them when [retryDelay] is positive:
    with the results of the first attempt that succeeds; or, after
    [retries] failed attempts, with the error of the last one; or with
    [ctx.Err()], when the wait after a failed attempt is cancelled. *)
Theorem GetRequest_three_ways (env : Env) (c : HTTPClient) (url : string) (w : World) :
  1 <= retries c ->
  exists m evs,
    Z.of_nat (S m) <= retries c /\
    snd (GetRequest env c url w) = advance w (S m) evs /\
    ((Result_err (attempt env c url (fetches w + m)) = None /\
      fst (GetRequest env c url w) = attempt env c url (fetches w + m) /\
      List.filter is_net evs = attempts_net (userAgent c) url (retryDelay c) m)
     \/
     (Z.of_nat (S m) = retries c /\
      exists err,
        Result_err (attempt env c url (fetches w + m)) = Some err /\
        fst (GetRequest env c url w) = (-1, None, -1, None, Some err) /\
        List.filter is_net evs = attempts_net (userAgent c) url (retryDelay c) m)
     \/
     (Z.of_nat (S m) < retries c /\
      fst (GetRequest env c url w) = (-1, None, -1, None, Some (ctx_Err env)) /\
      List.filter is_net evs = cancelled_net (userAgent c) url (retryDelay c) m)).
Proof.
  intros Hretries.
  destruct (first_stop env c url w (Z.to_nat (retries c) - 1))
    as (m & Hm & Hfail & Hwait & Hstop).
  destruct (Result_err (attempt env c url (fetches w + m))) as [err|] eqn:Herr.
  - destruct (decide (m = (Z.to_nat (retries c) - 1)%nat)) as [Hlast | Hne].
    + destruct (GetRequest_stops env c url w m) as [evs [Hrun Hnet]];
        [lia | exact Hfail | exact Hwait | right; lia |].
      exists m, evs. rewrite Hrun. cbn [fst snd]. split; [lia|]. split; [reflexivity|].
      right. left. split; [lia|]. exists err. split; [exact Herr|].
      unfold surface. rewrite Herr. split; [reflexivity | exact Hnet].
    + destruct Hstop as [Heq | [Hok | (Hd & _ & Hc)]]; [contradiction | discriminate |].
      destruct (GetRequest_cancelled env c url w m) as [evs [Hrun Hnet]];
        [lia | exact Hd | | exact Hwait | exact Hc |].
      { intros j Hj. destruct (decide (j = m)) as [-> | Hj'].
        - rewrite Herr. discriminate.
        - apply Hfail. lia. }
      exists m, evs. rewrite Hrun. cbn [fst snd]. split; [lia|]. split; [reflexivity|].
      right. right. split; [lia|]. split; [reflexivity | exact Hnet].
  - destruct (GetRequest_stops env c url w m) as [evs [Hrun Hnet]];
      [lia | exact Hfail | exact Hwait | left; exact Herr |].
    exists m, evs. rewrite Hrun. cbn [fst snd]. split; [lia|]. split; [reflexivity|].
    left. split; [exact Herr|]. unfold surface. rewrite Herr.
    split; [reflexivity | exact Hnet].
Qed.

Lemma GetRequest_three_ways_witness :
  let flaky := Sample.env_of (fun n => if Nat.eqb n 1 then Sample.ok "v1" else Sample.refused)
                 true true in
  let c := Sample.client 3 500000000 in
  let w := Sample.store [] in
  1 <= retries c /\
  exists m evs,
    Z.of_nat (S m) <= retries c /\
    snd (GetRequest flaky c "https://a.example/" w) = advance w (S m) evs.
Proof.
  intros flaky c w. split; [discriminate|].
  destruct (GetRequest_three_ways flaky c "https://a.example/" w) as (m & evs & Hm & Hsnd & _);
    [discriminate|].
  exists m, evs. split; [exact Hm | exact Hsnd].
Defined.

(** ** formatHeaders *)

Lemma append_empty_r (s : string) : s +:+ EmptyString = s.
Proof.
  induction s as [|ch s IH]; [reflexivity|].
  change (String ch (s +:+ EmptyString) = String ch s). rewrite IH. reflexivity.
Qed.

Lemma append_assoc (s1 s2 s3 : string) : (s1 +:+ s2) +:+ s3 = s1 +:+ (s2 +:+ s3).
Proof.
  induction s1 as [|ch s1 IH]; [reflexivity|].
  change (String ch ((s1 +:+ s2) +:+ s3) = String ch (s1 +:+ (s2 +:+ s3))).
  rewrite IH. reflexivity.
Qed.

Lemma formatHeaders_fold (entries : list (string * list string)) (sb : string) :
  fold_left
    (fun sb '(key, value) => sb +:+ key +:+ ": " +:+ strings_Join value ", " +:+ LF)
    entries sb
  = sb +:+ formatHeaders (Some entries).
Proof.
  unfold formatHeaders. revert sb.
  induction entries as [|[key value] rest IH]; intros sb; cbn [fold_left].
  - rewrite append_empty_r. reflexivity.
  - rewrite IH. rewrite (IH (EmptyString +:+ _)). cbn [String.append].
    rewrite append_assoc. reflexivity.
Qed.

(** X15.  [formatHeaders] gives the empty text for a nil map and for an
    empty one, and otherwise one line [key: v1, v2] per header, ended by a
    line feed, in the order of the [range]: the text for the headers
    [entries ++ more] is the text for [entries] followed by the text for
    [more]. *)
Theorem formatHeaders_lines (key : string) (value : list string)
    (entries more : list (string * list string)) :
  formatHeaders None = EmptyString /\
  formatHeaders (Some []) = EmptyString /\
  formatHeaders (Some [(key, value)]) = key +:+ ": " +:+ strings_Join value ", " +:+ LF /\
  formatHeaders (Some (entries ++ more))
    = formatHeaders (Some entries) +:+ formatHeaders (Some more).
Proof.
  split; [reflexivity|]. split; [reflexivity|]. split; [reflexivity|].
  unfold formatHeaders at 1. rewrite fold_left_app, !formatHeaders_fold. reflexivity.
Qed.
